(** * lue_vuosiraportti: weekly electricity report

    A shallow embedding of [lue_vuosiraportti.py] and the properties of its
    three stages: the loader [lue_data], the aggregator [laske_paivasummat]
    and the reporter [tulosta_raportti] with its formatting helpers.

    Python values are modelled as follows.
    - [float] is IEEE 754 binary64, computed with the executable
      specification of the Standard Library ([SpecFloat], precision 53,
      maximal exponent 1024): additions and divisions round to nearest even,
      overflow to an infinity and propagate NaN exactly as CPython's do.
    - [int] is [Z].
    - [dict] is an insertion-ordered association list without duplicate
      keys; [list] and [tuple] are lists, indexed the way Python indexes.
    - an exception is the [Raise] branch of the [result] type.
    - the console is the list of the strings printed, one per [print].

    The loader is modelled from the rows that [csv.DictReader] yields.  The
    two library parsers it calls, [float] and [datetime.fromisoformat], are
    parameters of the loader; the module [Parse] gives executable models of
    them for the examples.

    The file has three parts: the program, the specifications the theorems
    refer to together with the example data, and the properties. *)

From Stdlib Require Import ZArith Lia Bool Ascii String DecimalString.
From Stdlib Require Import Floats.SpecFloat.
From Stdlib Require DecimalZ DecimalPos.
From stdpp Require Import base decidable option list strings sorting.

Open Scope Z_scope.

(** ** Exceptions *)

Inductive exn : Set :=
| KeyError
| IndexError
| TypeError
| ValueError.

Inductive result (A : Type) : Type :=
| Ok (a : A)
| Raise (e : exn).

Arguments Ok {A} a.
Arguments Raise {A} e.

#[global] Instance result_ret : MRet result := @Ok.
#[global] Instance result_bind : MBind result :=
  fun A B f r => match r with Ok a => f a | Raise e => Raise e end.
#[global] Instance result_fmap : FMap result :=
  fun A B f r => match r with Ok a => Ok (f a) | Raise e => Raise e end.

(** A [for] loop whose body may raise: the first exception ends the loop. *)
Fixpoint for_each {A S : Type} (body : S -> A -> result S) (xs : list A) (s : S)
  : result S :=
  match xs with
  | [] => Ok s
  | x :: xs' => s' ← body s x; for_each body xs' s'
  end.

(** ** Python floats *)

Module Float.

Definition float : Set := spec_float.
Definition prec : Z := 53.
Definition emax : Z := 1024.

Definition add : float -> float -> float := SFadd prec emax.
Definition div : float -> float -> float := SFdiv prec emax.

(** The float nearest to an integer ([float(n)], and integer literals such
    as [1000.0]). *)
Definition of_Z (n : Z) : float := binary_normalize prec emax n 0 false.

Definition zero : float := S754_zero false.
Definition thousand : float := Eval vm_compute in of_Z 1000.

Definition is_finite (x : float) : bool :=
  match x with
  | S754_zero _ | S754_finite _ _ _ => true
  | _ => false
  end.

#[global] Instance float_eq_dec : EqDecision float.
Proof. solve_decision. Defined.

End Float.

Abbreviation float := Float.float.

(** ** Python containers *)

Section Dict.

Context {K V : Type} `{EqDecision K}.

Definition dict : Type := list (K * V).

Fixpoint dict_get (k : K) (d : dict) : option V :=
  match d with
  | [] => None
  | (k', v) :: d' => if decide (k = k') then Some v else dict_get k d'
  end.

(** [k in d] *)
Definition dict_contains (k : K) (d : dict) : bool :=
  match dict_get k d with Some _ => true | None => false end.

(** [d[k]] *)
Definition dict_getitem (k : K) (d : dict) : result V :=
  match dict_get k d with Some v => Ok v | None => Raise KeyError end.

(** [d[k] = v]: a present key keeps its place, a new key goes last. *)
Fixpoint dict_set (k : K) (v : V) (d : dict) : dict :=
  match d with
  | [] => [(k, v)]
  | (k', v') :: d' =>
      if decide (k = k') then (k, v) :: d' else (k', v') :: dict_set k v d'
  end.

Definition dict_keys (d : dict) : list K := d.*1.
Definition dict_items (d : dict) : list (K * V) := d.

End Dict.

Arguments dict : clear implicits.

(** The position an index [i] denotes in a sequence of length [n]: negative
    indices count from the end, anything else out of range is an error. *)
Definition py_index (n : nat) (i : Z) : option nat :=
  let j := if i <? 0 then i + Z.of_nat n else i in
  if (0 <=? j) && (j <? Z.of_nat n) then Some (Z.to_nat j) else None.

(** [l[i]] *)
Definition list_getitem {A : Type} (l : list A) (i : Z) : result A :=
  match py_index (length l) i with
  | Some j => match l !! j with Some x => Ok x | None => Raise IndexError end
  | None => Raise IndexError
  end.

(** [l[i] = x] *)
Definition list_setitem {A : Type} (l : list A) (i : Z) (x : A) : result (list A) :=
  match py_index (length l) i with
  | Some j => Ok (<[j := x]> l)
  | None => Raise IndexError
  end.

Definition tuple3 (A : Type) : Type := (A * A * A)%type.

Definition tuple3_to_list {A : Type} (t : tuple3 A) : list A :=
  let '(a, b, c) := t in [a; b; c].

(** [t[i]] on a 3-tuple *)
Definition tuple3_getitem {A : Type} (t : tuple3 A) (i : Z) : result A :=
  list_getitem (tuple3_to_list t) i.

(** [range(n)] *)
Definition range (n : nat) : list Z := Z.of_nat <$> seq 0 n.

(** ** Data model *)

(** [datetime.date] *)
Record date : Type := Date { year : Z; month : Z; day : Z }.

#[global] Instance date_eq_dec : EqDecision date.
Proof. solve_decision. Defined.

(** One parsed row: [{"paiva": ..., "kulutus": (..), "tuotanto": (..)}]. *)
Record mittaus : Type := Mittaus {
  paiva : date;
  kulutus : tuple3 float;
  tuotanto : tuple3 float
}.

(** The running sums of a day, in watt-hours:
    [{"kulutus_wh": [..], "tuotanto_wh": [..]}]. *)
Record summat_wh : Type := SummatWh {
  kulutus_wh : list float;
  tuotanto_wh : list float
}.

(** The totals of a day, in kilowatt-hours:
    [{"kulutus": kulutus_kwh, "tuotanto": tuotanto_kwh}]. *)
Record summat_kwh : Type := SummatKwh {
  kulutus_kwh : list float;
  tuotanto_kwh : list float
}.

(** ** The aggregator *)

Definition nollat : summat_wh :=
  {| kulutus_wh := [Float.zero; Float.zero; Float.zero];
     tuotanto_wh := [Float.zero; Float.zero; Float.zero] |}.

(** The body of [for i in range(3)]: the two [+=] on the lists of the day. *)
Definition lisaa_vaihe (m : mittaus) (acc : dict date summat_wh) (i : Z)
  : result (dict date summat_wh) :=
  arvot ← dict_getitem (paiva m) acc;
  vanha ← list_getitem (kulutus_wh arvot) i;
  lisays ← tuple3_getitem (kulutus m) i;
  uusi ← list_setitem (kulutus_wh arvot) i (Float.add vanha lisays);
  let acc := dict_set (paiva m)
               {| kulutus_wh := uusi; tuotanto_wh := tuotanto_wh arvot |} acc in
  arvot ← dict_getitem (paiva m) acc;
  vanha ← list_getitem (tuotanto_wh arvot) i;
  lisays ← tuple3_getitem (tuotanto m) i;
  uusi ← list_setitem (tuotanto_wh arvot) i (Float.add vanha lisays);
  Ok (dict_set (paiva m)
        {| kulutus_wh := kulutus_wh arvot; tuotanto_wh := uusi |} acc).

(** The body of [for mittaus in mittaukset]. *)
Definition lisaa_mittaus (acc : dict date summat_wh) (m : mittaus)
  : result (dict date summat_wh) :=
  let acc :=
    if negb (dict_contains (paiva m) acc)
    then dict_set (paiva m) nollat acc
    else acc in
  for_each (lisaa_vaihe m) (range 3) acc.

(** The body of [for paiva, arvot in paiva_summat_wh.items()]. *)
Definition muunna_kwh (acc : dict date summat_kwh) (item : date * summat_wh)
  : result (dict date summat_kwh) :=
  let '(p, arvot) := item in
  let kul := (fun x => Float.div x Float.thousand) <$> kulutus_wh arvot in
  let tuo := (fun x => Float.div x Float.thousand) <$> tuotanto_wh arvot in
  Ok (dict_set p {| kulutus_kwh := kul; tuotanto_kwh := tuo |} acc).

Definition laske_paivasummat (mittaukset : list mittaus)
  : result (dict date summat_kwh) :=
  paiva_summat_wh ← for_each lisaa_mittaus mittaukset [];
  for_each muunna_kwh (dict_items paiva_summat_wh) [].

(** ** Calendar dates

    [datetime.date] keeps a year, a month and a day.  Its constructor accepts
    the dates of the proleptic Gregorian calendar from year 1 to year 9999;
    [weekday()] is computed from the ordinal of the date, as in the
    [datetime] module. *)

Definition is_leap (y : Z) : bool :=
  (y mod 4 =? 0) && (negb (y mod 100 =? 0) || (y mod 400 =? 0)).

Definition days_before_year (y : Z) : Z :=
  let y := y - 1 in
  y * 365 + y / 4 - y / 100 + y / 400.

Definition DAYS_IN_MONTH : list Z :=
  [-1; 31; 28; 31; 30; 31; 30; 31; 31; 30; 31; 30; 31].

Definition DAYS_BEFORE_MONTH : list Z :=
  [-1; 0; 31; 59; 90; 120; 151; 181; 212; 243; 273; 304; 334].

Definition days_in_month (y m : Z) : Z :=
  if (m =? 2) && is_leap y then 29
  else nth (Z.to_nat m) DAYS_IN_MONTH 0.

Definition days_before_month (y m : Z) : Z :=
  nth (Z.to_nat m) DAYS_BEFORE_MONTH 0
  + (if (2 <? m) && is_leap y then 1 else 0).

Definition valid_date (p : date) : bool :=
  (1 <=? year p) && (year p <=? 9999)
  && (1 <=? month p) && (month p <=? 12)
  && (1 <=? day p) && (day p <=? days_in_month (year p) (month p)).

Definition toordinal (p : date) : Z :=
  days_before_year (year p) + days_before_month (year p) (month p) + day p.

(** [date.weekday()]: Monday is 0, Sunday is 6. *)
Definition weekday (p : date) : Z := (toordinal p + 6) mod 7.

(** Dates compare as their (year, month, day) triples. *)
Definition date_leb (a b : date) : bool :=
  (year a <? year b)
  || ((year a =? year b)
      && ((month a <? month b)
          || ((month a =? month b) && (day a <=? day b)))).

Definition date_le (a b : date) : Prop := date_leb a b = true.
Definition date_lt (a b : date) : Prop := date_le a b /\ a <> b.

#[global] Instance date_le_dec : RelDecision date_le.
Proof. intros a b. unfold date_le. apply _. Defined.

(** [sorted(xs)] on dates.  The ascending arrangement of a list under a total
    antisymmetric order is unique, so any sorting algorithm returns what
    Python's does. *)
Definition sorted (xs : list date) : list date := merge_sort date_le xs.

(** ** Strings *)

(** [len(s)]: Python counts code points, the model keeps UTF-8 bytes. *)
Definition is_continuation (c : ascii) : bool :=
  let n := Z.of_nat (nat_of_ascii c) in (128 <=? n) && (n <? 192).

Fixpoint py_len (s : string) : nat :=
  match s with
  | EmptyString => 0%nat
  | String c s' => if is_continuation c then py_len s' else S (py_len s')
  end.

(** [c * n] *)
Fixpoint str_repeat (c : string) (n : nat) : string :=
  match n with
  | O => ""
  | S n' => c +:+ str_repeat c n'
  end.

(** [f"{s:<w}"] and [f"{s:>w}"] *)
Definition ljust (w : nat) (s : string) : string :=
  s +:+ str_repeat " " (w - py_len s).
Definition rjust (w : nat) (s : string) : string :=
  str_repeat " " (w - py_len s) +:+ s.

(** [s.replace(old, new)] for one-character [old] and [new]. *)
Fixpoint str_replace (old new : ascii) (s : string) : string :=
  match s with
  | EmptyString => EmptyString
  | String c s' =>
      String (if Ascii.eqb c old then new else c) (str_replace old new s')
  end.

(** [str(n)] *)
Definition str_of_Z (n : Z) : string := NilZero.string_of_int (Z.to_int n).

(** The nearest integer to [a / d], ties to the even one ([0 <= a], [0 < d]). *)
Definition div_half_even (a d : Z) : Z :=
  let q := a / d in
  match 2 * (a mod d) ?= d with
  | Lt => q
  | Gt => q + 1
  | Eq => if Z.even q then q else q + 1
  end.

(** The magnitude [m * 2^e] in hundredths, correctly rounded. *)
Definition sadasosat (m : positive) (e : Z) : Z :=
  if 0 <=? e then Z.pos m * 2 ^ e * 100
  else div_half_even (Z.pos m * 100) (2 ^ (- e)).

Definition etumerkki (s : bool) : string := if s then "-" else "".

Definition kaksi_numeroa (n : Z) : string :=
  str_of_Z (n / 10) +:+ str_of_Z (n mod 10).

(** [f"{x:.2f}"]: the decimal expansion of the exact binary value, rounded
    to two places half-to-even; infinities and NaN have no digits. *)
Definition format_2f (x : float) : string :=
  match x with
  | S754_nan => "nan"
  | S754_infinity s => etumerkki s +:+ "inf"
  | S754_zero s => etumerkki s +:+ "0.00"
  | S754_finite s m e =>
      let n := sadasosat m e in
      etumerkki s +:+ str_of_Z (n / 100) +:+ "." +:+ kaksi_numeroa (n mod 100)
  end.

(** ** The reporter *)

Definition muotoile_pvm (p : date) : string :=
  str_of_Z (day p) +:+ "." +:+ str_of_Z (month p) +:+ "." +:+ str_of_Z (year p).

Definition muotoile_kwh (arvo : float) : string :=
  let arvo_str := format_2f arvo in
  str_replace "." "," arvo_str.

Definition nimet : list string :=
  ["maanantai"; "tiistai"; "keskiviikko"; "torstai"; "perjantai";
   "lauantai"; "sunnuntai"].

Definition viikonpaivan_nimi (p : date) : result string :=
  list_getitem nimet (weekday p).

(** [a, b, c = t] *)
Definition unpack3 {A : Type} (t : list A) : result (tuple3 A) :=
  match t with
  | [a; b; c] => Ok (a, b, c)
  | _ => Raise ValueError
  end.

Definition newline : string := String (ascii_of_nat 10) EmptyString.

(** What the four [print] calls before the loop write. *)
Definition otsikko : list string :=
  [ "Viikon 42 sähkönkulutus ja tuotanto" +:+ newline;
    ljust 12 "Päivä" +:+ " " +:+ ljust 12 "Pvm" +:+ " "
      +:+ rjust 26 "Kulutus [kWh]" +:+ " " +:+ rjust 26 "Tuotanto [kWh]";
    ljust 12 "" +:+ " " +:+ ljust 12 "(pv.kk.vvvv)"
      +:+ rjust 8 "v1" +:+ rjust 8 "v2" +:+ rjust 8 "v3" +:+ " "
      +:+ rjust 8 "v1" +:+ rjust 8 "v2" +:+ rjust 8 "v3";
    str_repeat "-" 80 ].

(** The body of [for paiva in sorted(paiva_summat.keys())]: the line it
    prints, or the exception it raises. *)
Definition tulosta_rivi (paiva_summat : dict date summat_kwh) (p : date)
  : result string :=
  paiva_nimi ← viikonpaivan_nimi p;
  let pvm_str := muotoile_pvm p in
  arvot ← dict_getitem p paiva_summat;
  '(kul_v1, kul_v2, kul_v3) ← unpack3 (kulutus_kwh arvot);
  arvot ← dict_getitem p paiva_summat;
  '(tuo_v1, tuo_v2, tuo_v3) ← unpack3 (tuotanto_kwh arvot);
  Ok (ljust 12 paiva_nimi +:+ " " +:+ ljust 12 pvm_str
      +:+ rjust 8 (muotoile_kwh kul_v1)
      +:+ rjust 8 (muotoile_kwh kul_v2)
      +:+ rjust 8 (muotoile_kwh kul_v3)
      +:+ rjust 8 (muotoile_kwh tuo_v1)
      +:+ rjust 8 (muotoile_kwh tuo_v2)
      +:+ rjust 8 (muotoile_kwh tuo_v3)).

(** A program's console: the lines printed so far, and how it ended. *)
Definition console : Type := (list string * result unit)%type.

Fixpoint tulosta_rivit (paiva_summat : dict date summat_kwh) (ps : list date)
  : console :=
  match ps with
  | [] => ([], Ok tt)
  | p :: ps' =>
      match tulosta_rivi paiva_summat p with
      | Raise e => ([], Raise e)
      | Ok rivi =>
          let '(loput, r) := tulosta_rivit paiva_summat ps' in
          (rivi :: loput, r)
      end
  end.

Definition tulosta_raportti (paiva_summat : dict date summat_kwh) : console :=
  let '(rivit, r) := tulosta_rivit paiva_summat (sorted (dict_keys paiva_summat)) in
  (otsikko ++ rivit, r).

(** ** The loader *)

(** [datetime.datetime] without its time zone, which [date()] ignores. *)
Record datetime : Type := DateTime {
  pvm : date;
  hour : Z;
  minute : Z;
  second : Z;
  microsecond : Z
}.

(** [aika.date()] *)
Definition datetime_date (t : datetime) : date := pvm t.

(** A row as [csv.DictReader] yields it: the header's field names mapped to
    the cells of the row, and to [None] where the row is shorter than the
    header. *)
Definition rivi : Type := dict string (option string).

Definition kulutus_kentat : list string :=
  ["Kulutus vaihe 1 Wh"; "Kulutus vaihe 2 Wh"; "Kulutus vaihe 3 Wh"].
Definition tuotanto_kentat : list string :=
  ["Tuotanto vaihe 1 Wh"; "Tuotanto vaihe 2 Wh"; "Tuotanto vaihe 3 Wh"].
Definition energiakentat : list string := kulutus_kentat ++ tuotanto_kentat.
Definition kentat : list string := "Aika" :: energiakentat.

Section Loader.

(** The two library parsers on strings: [None] is their [ValueError]. *)
Variable float_of_string : string -> option float.
Variable datetime_of_string : string -> option datetime.

(** [float(v)] *)
Definition py_float (v : option string) : result float :=
  match v with
  | None => Raise TypeError
  | Some s =>
      match float_of_string s with
      | Some x => Ok x
      | None => Raise ValueError
      end
  end.

(** [datetime.fromisoformat(v)] *)
Definition fromisoformat (v : option string) : result datetime :=
  match v with
  | None => Raise TypeError
  | Some s =>
      match datetime_of_string s with
      | Some t => Ok t
      | None => Raise ValueError
      end
  end.

(** The body of [for rivi in lukija]. *)
Definition lue_rivi (mittaukset : list mittaus) (r : rivi)
  : result (list mittaus) :=
  aika_str ← dict_getitem "Aika" r;
  aika ← fromisoformat aika_str;
  let paiva := datetime_date aika in
  kulutus_v1 ← dict_getitem "Kulutus vaihe 1 Wh" r ≫= py_float;
  kulutus_v2 ← dict_getitem "Kulutus vaihe 2 Wh" r ≫= py_float;
  kulutus_v3 ← dict_getitem "Kulutus vaihe 3 Wh" r ≫= py_float;
  tuotanto_v1 ← dict_getitem "Tuotanto vaihe 1 Wh" r ≫= py_float;
  tuotanto_v2 ← dict_getitem "Tuotanto vaihe 2 Wh" r ≫= py_float;
  tuotanto_v3 ← dict_getitem "Tuotanto vaihe 3 Wh" r ≫= py_float;
  Ok (mittaukset ++
        [ {| paiva := paiva;
             kulutus := (kulutus_v1, kulutus_v2, kulutus_v3);
             tuotanto := (tuotanto_v1, tuotanto_v2, tuotanto_v3) |} ]).

(** [lue_data], from the rows the reader yields. *)
Definition lue_data (rivit : list rivi) : result (list mittaus) :=
  for_each lue_rivi rivit [].

(** [main]: no exception is caught, so the first one ends the run with
    what was printed before it. *)
Definition main (rivit : list rivi) : console :=
  match lue_data rivit with
  | Raise e => ([], Raise e)
  | Ok mittaukset =>
      match laske_paivasummat mittaukset with
      | Raise e => ([], Raise e)
      | Ok paiva_summat => tulosta_raportti paiva_summat
      end
  end.

End Loader.

(** ** Reference parsers

    Executable models of [float] on strings and of
    [datetime.fromisoformat] for ASCII input, used for the examples.  The
    theorems on the loader hold for any pair of parsers. *)

Module Parse.

Definition code (c : ascii) : Z := Z.of_nat (nat_of_ascii c).

Definition is_space (c : ascii) : bool :=
  let n := code c in
  ((9 <=? n) && (n <=? 13)) || ((28 <=? n) && (n <=? 32)).

Definition digit_of (c : ascii) : option Z :=
  let n := code c in
  if (48 <=? n) && (n <=? 57) then Some (n - 48) else None.

Definition is_digit (c : ascii) : bool :=
  match digit_of c with Some _ => true | None => false end.

Definition lower (c : ascii) : ascii :=
  let n := code c in
  if (65 <=? n) && (n <=? 90) then ascii_of_nat (Z.to_nat (n + 32)) else c.

Fixpoint lstrip (cs : list ascii) : list ascii :=
  match cs with
  | c :: cs' => if is_space c then lstrip cs' else cs
  | [] => []
  end.

Definition strip (cs : list ascii) : list ascii :=
  rev (lstrip (rev (lstrip cs))).

Definition sign (cs : list ascii) : bool * list ascii :=
  match cs with
  | "-"%char :: cs' => (true, cs')
  | "+"%char :: cs' => (false, cs')
  | _ => (false, cs)
  end.

Definition starts_with_digit (cs : list ascii) : bool :=
  match cs with
  | c :: _ => is_digit c
  | [] => false
  end.

(** The longest prefix [digit (["_"] digit)*], as digit values, and what
    follows it. *)
Fixpoint digitpart (cs : list ascii) : list Z * list ascii :=
  match cs with
  | [] => ([], [])
  | c :: cs' =>
      match digit_of c with
      | None => ([], cs)
      | Some d =>
          match cs' with
          | u :: cs'' =>
              if Ascii.eqb u "_" && starts_with_digit cs''
              then let '(ds, r) := digitpart cs'' in (d :: ds, r)
              else let '(ds, r) := digitpart cs' in (d :: ds, r)
          | [] => ([d], [])
          end
      end
  end.

Definition number_of (ds : list Z) : Z :=
  fold_left (fun n d => 10 * n + d) ds 0.

(** The float nearest to [+-m * 10^e]. *)
Definition decimal (neg : bool) (m e : Z) : float :=
  match m with
  | Z.pos p =>
      if 0 <=? e
      then binary_normalize Float.prec Float.emax
             (cond_Zopp neg (m * 10 ^ e)) 0 false
      else Float.div (S754_finite neg p 0)
                     (S754_finite false (Z.to_pos (10 ^ (- e))) 0)
  | _ => S754_zero neg
  end.

Definition exponent (cs : list ascii) : option Z :=
  match cs with
  | [] => Some 0
  | c :: cs' =>
      if Ascii.eqb (lower c) "e" then
        let '(neg, cs'') := sign cs' in
        match digitpart cs'' with
        | ((_ :: _) as ds, []) => Some (cond_Zopp neg (number_of ds))
        | _ => None
        end
      else None
  end.

Definition float_of_string (s : string) : option float :=
  let '(neg, cs) := sign (strip (list_ascii_of_string s)) in
  let name := string_of_list_ascii (lower <$> cs) in
  if String.eqb name "inf" || String.eqb name "infinity"
  then Some (S754_infinity neg)
  else if String.eqb name "nan" then Some S754_nan
  else
    let '(ip, r1) := digitpart cs in
    let '(fp, r2) :=
      match r1 with
      | "."%char :: r => digitpart r
      | _ => ([], r1)
      end in
    match ip ++ fp with
    | [] => None
    | ds =>
        e ← exponent r2;
        Some (decimal neg (number_of ds) (e - Z.of_nat (length fp)))
    end.

(** [n] digits, as a number. *)
Fixpoint digits (n : nat) (cs : list ascii) : option (Z * list ascii) :=
  match n with
  | O => Some (0, cs)
  | S n' =>
      match cs with
      | c :: cs' =>
          d ← digit_of c;
          '(v, r) ← digits n' cs';
          Some (d * 10 ^ Z.of_nat n' + v, r)
      | [] => None
      end
  end.

Definition expect (c : ascii) (cs : list ascii) : option (list ascii) :=
  match cs with
  | c' :: cs' => if Ascii.eqb c c' then Some cs' else None
  | [] => None
  end.

Definition date_part (cs : list ascii) : option (date * list ascii) :=
  '(y, r) ← digits 4 cs;
  r ← expect "-" r;
  '(m, r) ← digits 2 r;
  r ← expect "-" r;
  '(d, r) ← digits 2 r;
  let p := Date y m d in
  if valid_date p then Some (p, r) else None.

(** [HH[:MM[:SS]]] up to the end of the string. *)
Definition time_part (cs : list ascii) : option (Z * Z * Z) :=
  '(h, r) ← digits 2 cs;
  '(mi, r) ←
    match r with
    | [] => Some (0, [])
    | _ => r ← expect ":" r; digits 2 r
    end;
  '(sec, r) ←
    match r with
    | [] => Some (0, [])
    | _ => r ← expect ":" r; digits 2 r
    end;
  match r with
  | [] => if (h <? 24) && (mi <? 60) && (sec <? 60)
          then Some (h, mi, sec) else None
  | _ => None
  end.

(** [YYYY-MM-DD], alone or followed by one separator character and a
    time. *)
Definition datetime_of_string (s : string) : option datetime :=
  '(p, r) ← date_part (list_ascii_of_string s);
  match r with
  | [] => Some (DateTime p 0 0 0 0)
  | _ :: r' =>
      '(h, mi, sec) ← time_part r';
      Some (DateTime p h mi sec 0)
  end.

End Parse.

(** * Specifications and example data *)

(** ** The totals of a day

    What the aggregator is to compute, stated without its loops: the rows of
    the day in input order, the sum of a phase over them from [0.0] on, and
    one division by [1000.0] of each sum. *)

Definition paivan_rivit (d : date) (ms : list mittaus) : list mittaus :=
  filter (fun m => paiva m = d) ms.

(** [0.0 + x1 + ... + xn], added from the left. *)
Definition summa (xs : list float) : float := fold_left Float.add xs Float.zero.

(** The sums of the three phases. *)
Definition vaihesummat (ts : list (tuple3 float)) : list float :=
  [summa ((fun t => t.1.1) <$> ts);
   summa ((fun t => t.1.2) <$> ts);
   summa ((fun t => t.2) <$> ts)].

(** [x / 1000.0] *)
Definition kwh (x : float) : float := Float.div x Float.thousand.

Definition paivan_summat_wh (d : date) (ms : list mittaus) : summat_wh :=
  {| kulutus_wh := vaihesummat (kulutus <$> paivan_rivit d ms);
     tuotanto_wh := vaihesummat (tuotanto <$> paivan_rivit d ms) |}.

Definition muunnettu (arvot : summat_wh) : summat_kwh :=
  {| kulutus_kwh := kwh <$> kulutus_wh arvot;
     tuotanto_kwh := kwh <$> tuotanto_wh arvot |}.

Definition paivan_summat (d : date) (ms : list mittaus) : summat_kwh :=
  muunnettu (paivan_summat_wh d ms).

(** The sums of a day after one more row of it. *)
Definition lisatty (arvot : summat_wh) (m : mittaus) : summat_wh :=
  {| kulutus_wh := zip_with Float.add (kulutus_wh arvot) (tuple3_to_list (kulutus m));
     tuotanto_wh := zip_with Float.add (tuotanto_wh arvot) (tuple3_to_list (tuotanto m)) |}.

(** Running sums as the loop keeps them: three values of each kind. *)
Definition kolme (arvot : summat_wh) : Prop :=
  length (kulutus_wh arvot) = 3%nat /\ length (tuotanto_wh arvot) = 3%nat.

(** The days of the rows, one per row. *)
Definition paivat (ms : list mittaus) : list date := paiva <$> ms.

(** The invariant of the first loop: after the rows [ms] the dictionary holds
    the running sums of exactly the days of [ms]. *)
Definition summat_ok (acc : dict date summat_wh) (ms : list mittaus) : Prop :=
  NoDup (dict_keys acc)
  /\ forall d, dict_get d acc
             = if decide (d ∈ paivat ms) then Some (paivan_summat_wh d ms) else None.

(** ** Whole watt-hours

    Rows whose six values are whole numbers of watt-hours, as integers and
    as the measurements they stand for. *)

Definition wh_rivi : Type := (date * tuple3 Z * tuple3 Z)%type.

Definition mittaus_of_wh (r : wh_rivi) : mittaus :=
  let '(p, (k1, k2, k3), (t1, t2, t3)) := r in
  {| paiva := p;
     kulutus := (Float.of_Z k1, Float.of_Z k2, Float.of_Z k3);
     tuotanto := (Float.of_Z t1, Float.of_Z t2, Float.of_Z t3) |}.

(** The sum of the magnitudes of the six values of a row. *)
Definition itseisarvot (r : wh_rivi) : Z :=
  let '(_, (k1, k2, k3), (t1, t2, t3)) := r in
  Z.abs k1 + Z.abs k2 + Z.abs k3 + Z.abs t1 + Z.abs t2 + Z.abs t3.

(** The sum of a list of integers. *)
Definition Zsumma (zs : list Z) : Z := foldr Z.add 0 zs.

(** The rows are whole watt-hours whose magnitudes add up to less than
    [2^53]: no sum of them, in any order, needs rounding. *)
Definition kokonaisia (rows : list mittaus) : Prop :=
  exists zs : list wh_rivi,
    rows = mittaus_of_wh <$> zs /\ Zsumma (itseisarvot <$> zs) < 2 ^ 53.

(** [m * 2^n] *)
Definition siirto (m : positive) (n : Z) : positive :=
  match n with
  | Z.pos k => Pos.iter xO m k
  | _ => m
  end.

(** The binary64 number of sign [s] and magnitude [n], for [n < 2^53]: the
    mantissa is [n] shifted to 53 bits. *)
Definition kanoninen (s : bool) (n : positive) : float :=
  let d := Z.pos (digits2_pos n) in
  S754_finite s (siirto n (53 - d)) (d - 53).

(** ** Example measurements *)

Definition nolla3 : tuple3 float := (Float.zero, Float.zero, Float.zero).

(** A row of the day [p] whose only non-zero value is consumption phase 1. *)
Definition rivi_v1 (p : date) (x : float) : mittaus :=
  {| paiva := p; kulutus := (x, Float.zero, Float.zero); tuotanto := nolla3 |}.

Definition ma_14_10 : date := Date 2024 10 14.
Definition ti_15_10 : date := Date 2024 10 15.

(** 1e308 and -1e308 *)
Definition iso : float := S754_finite false 5010420900022432 971.
Definition iso_neg : float := S754_finite true 5010420900022432 971.

Definition jarjestys_1 : list mittaus :=
  [rivi_v1 ma_14_10 iso; rivi_v1 ma_14_10 iso; rivi_v1 ma_14_10 iso_neg].
Definition jarjestys_2 : list mittaus :=
  [rivi_v1 ma_14_10 iso; rivi_v1 ma_14_10 iso_neg; rivi_v1 ma_14_10 iso].

Definition lomitus_1 : list mittaus :=
  [rivi_v1 ma_14_10 (Float.of_Z 500); rivi_v1 ti_15_10 (Float.of_Z 7);
   rivi_v1 ma_14_10 (Float.of_Z 1500)].
Definition lomitus_2 : list mittaus :=
  [rivi_v1 ti_15_10 (Float.of_Z 7); rivi_v1 ma_14_10 (Float.of_Z 500);
   rivi_v1 ma_14_10 (Float.of_Z 1500)].

(** ** The value formatter *)

(** The string consists of decimal digits. *)
Definition numeroita (s : string) : Prop :=
  forallb Parse.is_digit (list_ascii_of_string s) = true.

(** The shape [[-]d..d,dd]: an optional minus sign, one digit or more,
    a comma, two digits. *)
Definition kaksi_desimaalia (s : string) : Prop :=
  exists (merkki kokonaiset : string) (k1 k2 : ascii),
    s = merkki +:+ kokonaiset +:+ "," +:+ String k1 (String k2 "")
    /\ (merkki = "" \/ merkki = "-")
    /\ kokonaiset <> ""
    /\ numeroita kokonaiset
    /\ Parse.is_digit k1 = true
    /\ Parse.is_digit k2 = true.

(** 1.5 *)
Definition puolitoista : float := S754_finite false 6755399441055744 (-52).

(** ** The reporter *)

(** Totals as the data model has them: three values of each kind. *)
Definition kolmikot (v : summat_kwh) : Prop :=
  length (kulutus_kwh v) = 3%nat /\ length (tuotanto_kwh v) = 3%nat.

(** Tuesday was inserted before Monday. *)
Definition ti_ma : dict date summat_kwh :=
  [(ti_15_10, paivan_summat ti_15_10 lomitus_2);
   (ma_14_10, paivan_summat ma_14_10 lomitus_2)].

(** ** The loader *)

Section LoaderSpec.
Variable float_of_string : string -> option float.
Variable datetime_of_string : string -> option datetime.

(** *** What can be wrong with a row *)

(** The field is missing: the header has no such column, or the row ends
    before it. *)
Definition puuttuu (r : rivi) (k : string) : Prop :=
  dict_get k r = None \/ dict_get k r = Some None.

(** The field is there and is not a number. *)
Definition ei_numero (r : rivi) (k : string) : Prop :=
  exists s, dict_get k r = Some (Some s) /\ float_of_string s = None.

(** The time stamp is there and is malformed. *)
Definition huono_aika (r : rivi) : Prop :=
  exists s, dict_get "Aika" r = Some (Some s) /\ datetime_of_string s = None.

Definition virheellinen (r : rivi) : Prop :=
  (exists k, k ∈ kentat /\ puuttuu r k)
  \/ (exists k, k ∈ energiakentat /\ ei_numero r k)
  \/ huono_aika r.

(** *** What a measurement owes to its row *)

Definition kentta_on (r : rivi) (k : string) (x : float) : Prop :=
  exists s, dict_get k r = Some (Some s) /\ float_of_string s = Some x.

Definition aika_on (r : rivi) (p : date) : Prop :=
  exists s t, dict_get "Aika" r = Some (Some s)
              /\ datetime_of_string s = Some t
              /\ p = datetime_date t.

Definition vastaa (r : rivi) (m : mittaus) : Prop :=
  aika_on r (paiva m)
  /\ kentta_on r "Kulutus vaihe 1 Wh" (kulutus m).1.1
  /\ kentta_on r "Kulutus vaihe 2 Wh" (kulutus m).1.2
  /\ kentta_on r "Kulutus vaihe 3 Wh" (kulutus m).2
  /\ kentta_on r "Tuotanto vaihe 1 Wh" (tuotanto m).1.1
  /\ kentta_on r "Tuotanto vaihe 2 Wh" (tuotanto m).1.2
  /\ kentta_on r "Tuotanto vaihe 3 Wh" (tuotanto m).2.

End LoaderSpec.

(** ** Example rows *)

Definition esimerkkirivi (aika k1 k2 k3 t1 t2 t3 : option string) : rivi :=
  [("Aika"%string, aika);
   ("Kulutus vaihe 1 Wh"%string, k1);
   ("Kulutus vaihe 2 Wh"%string, k2);
   ("Kulutus vaihe 3 Wh"%string, k3);
   ("Tuotanto vaihe 1 Wh"%string, t1);
   ("Tuotanto vaihe 2 Wh"%string, t2);
   ("Tuotanto vaihe 3 Wh"%string, t3)].

Definition rivi_500 : rivi :=
  esimerkkirivi (Some "2024-10-14T00:00:00"%string) (Some "500"%string)
    (Some "0"%string) (Some "0"%string) (Some "0"%string) (Some "0"%string)
    (Some "0"%string).

Definition rivi_1500 : rivi :=
  esimerkkirivi (Some "2024-10-14T01:00:00"%string) (Some "1500"%string)
    (Some "0"%string) (Some "0"%string) (Some "0"%string) (Some "0"%string)
    (Some "0"%string).

(** An energy field that is not a number. *)
Definition rivi_abc : rivi :=
  esimerkkirivi (Some "2024-10-15T00:00:00"%string) (Some "1.0"%string)
    (Some "abc"%string) (Some "0"%string) (Some "0"%string) (Some "0"%string)
    (Some "0"%string).

(** A row that ends after its fourth cell. *)
Definition rivi_lyhyt : rivi :=
  esimerkkirivi (Some "2024-10-15T00:00:00"%string) (Some "1.0"%string)
    (Some "2.0"%string) (Some "3.0"%string) None None None.

(** A time stamp in the report's own format. *)
Definition rivi_pvm : rivi :=
  esimerkkirivi (Some "14.10.2024"%string) (Some "1.0"%string)
    (Some "2.0"%string) (Some "3.0"%string) (Some "0"%string) (Some "0"%string)
    (Some "0"%string).

(** * Further specifications *)

(** The elements of a list, each once, in the order of their first
    occurrence. *)
Definition ensimmaiset {A : Type} `{EqDecision A} (xs : list A) : list A :=
  fold_left (fun acc x => if decide (x ∈ acc) then acc else acc ++ [x]) xs [].

(** [0.0 + x]: the value itself, but zero for negative zero. *)
Definition nollasta (x : float) : float :=
  match x with
  | S754_zero true => S754_zero false
  | _ => x
  end.

(** The whole watt-hour rows of a day. *)
Definition wh_paivan_rivit (d : date) (zs : list wh_rivi) : list wh_rivi :=
  filter (fun r => r.1.1 = d) zs.

(** The exact sums of the three consumption phases and of the three
    production phases of whole watt-hour rows. *)
Definition wh_kulutus (zs : list wh_rivi) : list Z :=
  [Zsumma ((fun r => r.1.2.1.1) <$> zs);
   Zsumma ((fun r => r.1.2.1.2) <$> zs);
   Zsumma ((fun r => r.1.2.2) <$> zs)].
Definition wh_tuotanto (zs : list wh_rivi) : list Z :=
  [Zsumma ((fun r => r.2.1.1) <$> zs);
   Zsumma ((fun r => r.2.1.2) <$> zs);
   Zsumma ((fun r => r.2.2) <$> zs)].

(** Example: a reading that is not a number among the rows of a day. *)
Definition nan_rivit : list mittaus :=
  [rivi_v1 ma_14_10 (Float.of_Z 500); rivi_v1 ma_14_10 S754_nan;
   rivi_v1 ma_14_10 (Float.of_Z 1500)].

(** Example: whole watt-hours on two days. *)
Definition wh_esimerkki : list wh_rivi :=
  [(ma_14_10, (500, 20, 0), (0, 3, 0)); (ti_15_10, (7, 0, 0), (1, 1, 1));
   (ma_14_10, (1500, 1, 0), (0, 4, 0))].

(** ** The exception of a row *)

Section LoaderErrors.

Variable float_of_string : string -> option float.
Variable datetime_of_string : string -> option datetime.

(** What reading one cell raises, if anything: [KeyError] when the row has
    no such field, [TypeError] when the field holds [None], [ValueError]
    when the parser refuses the text. *)
Definition solun_virhe {A : Type} (parse : string -> option A)
    (c : option (option string)) : option exn :=
  match c with
  | None => Some KeyError
  | Some None => Some TypeError
  | Some (Some s) =>
      match parse s with
      | Some _ => None
      | None => Some ValueError
      end
  end.

(** The first exception among the fields of a row, in the order in which the
    loop body reads them: the time stamp, then the six energy fields. *)
Definition rivin_virhe (r : rivi) : option exn :=
  match solun_virhe datetime_of_string (dict_get "Aika" r) with
  | Some e => Some e
  | None =>
      head (omap (fun k => solun_virhe float_of_string (dict_get k r)) energiakentat)
  end.

End LoaderErrors.

(** The row agrees with another on the seven fields the loader reads. *)
Definition samat_kentat (r r' : rivi) : Prop :=
  forall k, k ∈ kentat -> dict_get k r = dict_get k r'.

(** Example: the columns of [rivi_500] in another order, with two more. *)
Definition rivi_500_lisaa : rivi :=
  [("Tuotanto vaihe 3 Wh"%string, Some "0"%string);
   ("Huomautus"%string, Some "mittari vaihdettu"%string);
   ("Tuotanto vaihe 2 Wh"%string, Some "0"%string);
   ("Tuotanto vaihe 1 Wh"%string, Some "0"%string);
   ("Kulutus vaihe 3 Wh"%string, Some "0"%string);
   ("Kulutus vaihe 2 Wh"%string, Some "0"%string);
   ("Kulutus vaihe 1 Wh"%string, Some "500"%string);
   ("Aika"%string, Some "2024-10-14T00:00:00"%string);
   ("Tila"%string, None)].

(** Example: the totals of Tuesday lack a production value. *)
Definition vajaa : dict date summat_kwh :=
  [(ti_15_10, {| kulutus_kwh := [Float.of_Z 1; Float.of_Z 2; Float.of_Z 3];
                 tuotanto_kwh := [Float.zero; Float.zero] |});
   (ma_14_10, paivan_summat ma_14_10 lomitus_2)].

(** * Properties *)

(** ** Dictionaries *)

Section DictFacts.

Context {K V : Type} `{EqDecision K}.
Implicit Types (k : K) (v : V) (d : dict K V).

Lemma dict_get_set k k' v d :
  dict_get k' (dict_set k v d) = if decide (k' = k) then Some v else dict_get k' d.
Proof.
  induction d as [|[k0 v0] d IH]; simpl.
  - repeat case_decide; congruence.
  - repeat (case_decide; simpl); try congruence.
Qed.

Lemma dict_get_set_eq k v d : dict_get k (dict_set k v d) = Some v.
Proof. rewrite dict_get_set. by case_decide. Qed.

Lemma dict_set_set k v v' d : dict_set k v (dict_set k v' d) = dict_set k v d.
Proof.
  induction d as [|[k0 v0] d IH]; simpl.
  - by case_decide.
  - repeat (case_decide; simpl); congruence.
Qed.

Lemma dict_get_None k d : dict_get k d = None <-> k ∉ dict_keys d.
Proof.
  unfold dict_keys. induction d as [|[k0 v0] d IH]; simpl.
  - split; [intros _; apply not_elem_of_nil | done].
  - rewrite not_elem_of_cons. case_decide; [|tauto].
    split; [done | tauto].
Qed.

Lemma dict_get_Some_keys k v d : dict_get k d = Some v -> k ∈ dict_keys d.
Proof.
  intros H1. destruct (decide (k ∈ dict_keys d)) as [|Hn]; [done|].
  apply dict_get_None in Hn. congruence.
Qed.

Lemma dict_keys_get k d : k ∈ dict_keys d -> is_Some (dict_get k d).
Proof.
  intros Hin. destruct (dict_get k d) eqn:E; [eauto|].
  by apply dict_get_None in E.
Qed.

Lemma dict_get_elem_of k v d : dict_get k d = Some v -> (k, v) ∈ d.
Proof.
  induction d as [|[k0 v0] d IH]; simpl; [done|].
  case_decide; intros; simplify_eq; [left | right; auto].
Qed.

Lemma dict_elem_of_get k v d : NoDup (dict_keys d) -> (k, v) ∈ d -> dict_get k d = Some v.
Proof.
  unfold dict_keys. induction d as [|[k0 v0] d IH]; simpl.
  - intros _ Hin. by apply elem_of_nil in Hin.
  - rewrite NoDup_cons. intros [Hk0 Hnd] Hin.
    apply elem_of_cons in Hin as [Heq|Hin]; simplify_eq.
    + by case_decide.
    + case_decide; [|auto]. subst k0. exfalso. apply Hk0.
      apply list_elem_of_fmap. by exists (k, v).
Qed.

Lemma dict_set_new k v d : dict_get k d = None -> dict_set k v d = d ++ [(k, v)].
Proof.
  induction d as [|[k0 v0] d IH]; simpl; [done|].
  case_decide; [done|]. intros. f_equal. auto.
Qed.

Lemma dict_keys_set_old k v d :
  is_Some (dict_get k d) -> dict_keys (dict_set k v d) = dict_keys d.
Proof.
  unfold dict_keys. induction d as [|[k0 v0] d IH]; simpl.
  - by intros [? ?].
  - case_decide; simpl; intros; [congruence | f_equal; auto].
Qed.

Lemma dict_keys_set k v d :
  dict_keys (dict_set k v d)
  = if dict_contains k d then dict_keys d else dict_keys d ++ [k].
Proof.
  unfold dict_contains. destruct (dict_get k d) eqn:E.
  - apply dict_keys_set_old. eauto.
  - rewrite dict_set_new by done. unfold dict_keys. by rewrite fmap_app.
Qed.

Lemma dict_set_NoDup k v d : NoDup (dict_keys d) -> NoDup (dict_keys (dict_set k v d)).
Proof.
  intros Hnd. rewrite dict_keys_set. unfold dict_contains.
  destruct (dict_get k d) eqn:E; [done|].
  apply NoDup_app. split_and!; [done | | apply NoDup_singleton].
  intros x Hx Hx'. apply list_elem_of_singleton in Hx'. subst x.
  by apply dict_get_None in E.
Qed.

(** Two dictionaries with the same items answer every lookup alike. *)
Lemma dict_get_Permutation k d d' :
  NoDup (dict_keys d) -> d ≡ₚ d' -> dict_get k d = dict_get k d'.
Proof.
  intros Hnd Hp.
  assert (Hnd' : NoDup (dict_keys d')).
  { unfold dict_keys in *. by rewrite <- Hp. }
  destruct (dict_get k d) as [v|] eqn:E.
  - symmetry. apply dict_elem_of_get; [done|].
    rewrite <- Hp. by apply dict_get_elem_of.
  - symmetry. apply dict_get_None. apply dict_get_None in E.
    unfold dict_keys in *. by rewrite <- Hp.
Qed.

End DictFacts.

Lemma dict_get_fmap {K V W : Type} `{EqDecision K} (f : V -> W) (k : K) (d : dict K V) :
  dict_get k (prod_map id f <$> d) = f <$> dict_get k d.
Proof.
  induction d as [|[k0 v0] d IH]; simpl; [done|]. by case_decide.
Qed.

Lemma dict_keys_fmap {K V W : Type} (f : V -> W) (d : dict K V) :
  dict_keys (prod_map id f <$> d) = dict_keys d.
Proof.
  unfold dict_keys. rewrite <- list_fmap_compose. by apply list_fmap_ext; intros ? [? ?].
Qed.

(** ** The aggregator *)

(** *** The first loop *)

Lemma dict_getitem_set {V : Type} (p : date) (v : V) (acc : dict date V) :
  dict_getitem p (dict_set p v acc) = Ok v.
Proof. unfold dict_getitem. by rewrite dict_get_set_eq. Qed.

(** One round of [for i in range(3)] adds phase [i] of the row to both lists
    of its day. *)
Lemma lisaa_vaihe_ok (m : mittaus) (arvot : summat_wh) (acc : dict date summat_wh) (i : nat) :
  dict_get (paiva m) acc = Some arvot ->
  kolme arvot ->
  (i < 3)%nat ->
  lisaa_vaihe m acc (Z.of_nat i)
  = Ok (dict_set (paiva m)
          {| kulutus_wh :=
               alter (fun a => Float.add a (nth i (tuple3_to_list (kulutus m)) Float.zero)) i
                     (kulutus_wh arvot);
             tuotanto_wh :=
               alter (fun a => Float.add a (nth i (tuple3_to_list (tuotanto m)) Float.zero)) i
                     (tuotanto_wh arvot) |} acc).
Proof.
  intros Hget [Hk Ht] Hi.
  destruct arvot as [[|a0 [|a1 [|a2 [|]]]] [|b0 [|b1 [|b2 [|]]]]]; simplify_eq/=.
  destruct m as [p [[k0 k1] k2] [[t0 t1] t2]]; simpl in *.
  unfold lisaa_vaihe, dict_getitem; simpl. rewrite Hget; simpl.
  destruct i as [|[|[|i]]]; [| | |lia]; simpl;
    rewrite dict_get_set_eq; simpl; by rewrite dict_set_set.
Qed.

Lemma lisaa_vaiheet (m : mittaus) (arvot : summat_wh) (acc : dict date summat_wh) :
  dict_get (paiva m) acc = Some arvot ->
  kolme arvot ->
  for_each (lisaa_vaihe m) (range 3) acc
  = Ok (dict_set (paiva m) (lisatty arvot m) acc).
Proof.
  intros Hget Hk. unfold range. simpl seq. simpl fmap. simpl for_each.
  rewrite (lisaa_vaihe_ok m arvot acc 0) by (done || lia). simpl.
  erewrite (lisaa_vaihe_ok m _ _ 1);
    [|apply dict_get_set_eq| destruct Hk; split; simpl; by rewrite length_alter |lia].
  simpl.
  erewrite (lisaa_vaihe_ok m _ _ 2);
    [|apply dict_get_set_eq| destruct Hk; split; simpl; by rewrite !length_alter |lia].
  simpl. rewrite !dict_set_set. do 2 f_equal.
  destruct Hk as [Hk Ht].
  destruct arvot as [[|a0 [|a1 [|a2 [|]]]] [|b0 [|b1 [|b2 [|]]]]]; simplify_eq/=.
  by destruct m as [p [[k0 k1] k2] [[t0 t1] t2]].
Qed.

Lemma lisaa_mittaus_ok (acc : dict date summat_wh) (m : mittaus) :
  (forall d v, dict_get d acc = Some v -> kolme v) ->
  lisaa_mittaus acc m
  = Ok (dict_set (paiva m) (lisatty (default nollat (dict_get (paiva m) acc)) m) acc).
Proof.
  intros Hk. unfold lisaa_mittaus, dict_contains.
  destruct (dict_get (paiva m) acc) as [v|] eqn:E; cbn [negb default].
  - apply lisaa_vaiheet; eauto.
  - erewrite lisaa_vaiheet; [|apply dict_get_set_eq|by split].
    by rewrite dict_set_set.
Qed.

(** *** The loop invariant *)

Lemma summa_snoc (xs : list float) (x : float) :
  summa (xs ++ [x]) = Float.add (summa xs) x.
Proof. unfold summa. by rewrite fold_left_app. Qed.

Lemma paivan_rivit_snoc (d : date) (ms : list mittaus) (m : mittaus) :
  paivan_rivit d (ms ++ [m])
  = paivan_rivit d ms ++ (if decide (paiva m = d) then [m] else []).
Proof.
  unfold paivan_rivit. rewrite filter_app. by f_equal.
Qed.

Lemma paivan_rivit_nil (d : date) (ms : list mittaus) :
  d ∉ paivat ms -> paivan_rivit d ms = [].
Proof.
  intros Hn. unfold paivan_rivit. induction ms as [|m ms IH]; [done|].
  unfold paivat in *. rewrite fmap_cons, not_elem_of_cons in Hn.
  destruct Hn as [Hne Hn]. rewrite filter_cons. case_decide; [congruence|auto].
Qed.

Lemma paivan_summat_wh_snoc (ms : list mittaus) (m : mittaus) :
  paivan_summat_wh (paiva m) (ms ++ [m])
  = lisatty (paivan_summat_wh (paiva m) ms) m.
Proof.
  unfold paivan_summat_wh, lisatty, vaihesummat. simpl.
  rewrite paivan_rivit_snoc. case_decide; [|done].
  rewrite !fmap_app. simpl. rewrite !summa_snoc.
  by destruct m as [p [[k0 k1] k2] [[t0 t1] t2]].
Qed.

Lemma paivan_summat_wh_other (d : date) (ms : list mittaus) (m : mittaus) :
  d <> paiva m -> paivan_summat_wh d (ms ++ [m]) = paivan_summat_wh d ms.
Proof.
  intros Hne. unfold paivan_summat_wh. rewrite paivan_rivit_snoc.
  case_decide; [congruence|]. by rewrite app_nil_r.
Qed.

Lemma paivan_summat_wh_fresh (d : date) (ms : list mittaus) :
  d ∉ paivat ms -> paivan_summat_wh d ms = nollat.
Proof. intros Hn. unfold paivan_summat_wh. by rewrite paivan_rivit_nil. Qed.

Lemma kolme_paivan_summat_wh (d : date) (ms : list mittaus) :
  kolme (paivan_summat_wh d ms).
Proof. by split. Qed.

Lemma summat_ok_nil : summat_ok [] [].
Proof.
  split; [apply NoDup_nil_2|]. intros d. unfold paivat. simpl dict_get.
  rewrite decide_False; [done|]. apply not_elem_of_nil.
Qed.

Lemma summat_ok_step (acc : dict date summat_wh) (ms : list mittaus) (m : mittaus) :
  summat_ok acc ms ->
  exists acc', lisaa_mittaus acc m = Ok acc' /\ summat_ok acc' (ms ++ [m]).
Proof.
  intros [Hnd Hget]. eexists. split.
  - apply lisaa_mittaus_ok. intros d v Hd. rewrite Hget in Hd.
    case_decide; simplify_eq. apply kolme_paivan_summat_wh.
  - split; [by apply dict_set_NoDup|].
    intros d. rewrite dict_get_set. unfold paivat in *. rewrite fmap_app. simpl.
    case_decide as Hd.
    + subst d. rewrite decide_True by (apply elem_of_app; right; by left).
      f_equal. rewrite Hget. rewrite paivan_summat_wh_snoc.
      case_decide as Hin; simpl; [done|]. by rewrite paivan_summat_wh_fresh.
    + rewrite Hget. rewrite paivan_summat_wh_other by done.
      destruct (decide (d ∈ paiva <$> ms)) as [Hin|Hin].
      * rewrite decide_True; [done|]. apply elem_of_app. by left.
      * rewrite decide_False; [done|]. intros [?|Hin']%elem_of_app; [done|].
        apply list_elem_of_singleton in Hin'. congruence.
Qed.

Lemma summat_ok_loop (ms pre : list mittaus) (acc : dict date summat_wh) :
  summat_ok acc pre ->
  exists acc', for_each lisaa_mittaus ms acc = Ok acc' /\ summat_ok acc' (pre ++ ms).
Proof.
  revert pre acc. induction ms as [|m ms IH]; intros pre acc Hok; simpl.
  - exists acc. by rewrite app_nil_r.
  - destruct (summat_ok_step acc pre m Hok) as (acc1 & -> & Hok1). simpl.
    destruct (IH _ _ Hok1) as (acc' & Hloop & Hok').
    exists acc'. split; [done|]. by rewrite <- app_assoc in Hok'.
Qed.

(** *** The second loop converts every entry, keeping the keys in place. *)

Lemma muunna_kwh_loop (items : dict date summat_wh) (acc : dict date summat_kwh) :
  NoDup (dict_keys acc ++ dict_keys items) ->
  for_each muunna_kwh (dict_items items) acc
  = Ok (acc ++ (prod_map id muunnettu <$> items)).
Proof.
  unfold dict_items. revert acc.
  induction items as [|[p arvot] items IH]; intros acc Hnd; simpl.
  - by rewrite app_nil_r.
  - rewrite dict_set_new.
    + rewrite IH.
      * by rewrite <- app_assoc.
      * unfold dict_keys in *. rewrite fmap_app. simpl.
        by rewrite <- app_assoc.
    + apply dict_get_None. unfold dict_keys in *. simpl in Hnd.
      apply NoDup_app in Hnd as (_ & Hdisj & _).
      intros Hin. apply (Hdisj p Hin). by left.
Qed.

(** *** The aggregator in one equation *)

Lemma laske_paivasummat_ok (ms : list mittaus) :
  exists acc,
    summat_ok acc ms
    /\ laske_paivasummat ms = Ok (prod_map id muunnettu <$> acc).
Proof.
  destruct (summat_ok_loop ms [] [] summat_ok_nil) as (acc & Hloop & Hok).
  exists acc. split; [done|].
  unfold laske_paivasummat. rewrite Hloop. simpl.
  rewrite muunna_kwh_loop; [done|]. by destruct Hok.
Qed.

Lemma laske_paivasummat_lookup (ms : list mittaus) :
  exists D,
    laske_paivasummat ms = Ok D
    /\ NoDup (dict_keys D)
    /\ forall d, dict_get d D
               = if decide (d ∈ paivat ms) then Some (paivan_summat d ms) else None.
Proof.
  destruct (laske_paivasummat_ok ms) as (acc & [Hnd Hget] & Heq).
  eexists. split; [exact Heq|]. split.
  - by rewrite dict_keys_fmap.
  - intros d. rewrite dict_get_fmap, Hget. by case_decide.
Qed.

(** C1. For every list of measurements the aggregator returns a mapping in
    which a day of the input is mapped to its totals: each of the three
    consumption phases and of the three production phases is the sum of the
    raw watt-hour values of that phase over the rows of the day (the binary64
    sum in row order, from 0.0 on), divided by 1000.0 once, after the
    summation; a day without rows has no entry. *)
Theorem laske_paivasummat_totals (ms : list mittaus) :
  exists D,
    laske_paivasummat ms = Ok D
    /\ forall d,
        dict_get d D
        = if decide (d ∈ paivat ms)
          then Some {| kulutus_kwh :=
                         kwh <$> vaihesummat (kulutus <$> paivan_rivit d ms);
                       tuotanto_kwh :=
                         kwh <$> vaihesummat (tuotanto <$> paivan_rivit d ms) |}
          else None.
Proof.
  destruct (laske_paivasummat_lookup ms) as (D & HD & _ & Hget).
  exists D. split; [done|]. intros d. by rewrite Hget.
Qed.

(** C9. The keys of the mapping the aggregator returns are exactly the
    distinct days of the input, each once, and every value holds three
    consumption totals and three production totals. *)
Theorem laske_paivasummat_keys (ms : list mittaus) :
  exists D,
    laske_paivasummat ms = Ok D
    /\ NoDup (dict_keys D)
    /\ (forall d, d ∈ dict_keys D <-> exists m, m ∈ ms /\ paiva m = d)
    /\ (forall d v, (d, v) ∈ D ->
          length (kulutus_kwh v) = 3%nat /\ length (tuotanto_kwh v) = 3%nat).
Proof.
  destruct (laske_paivasummat_lookup ms) as (D & HD & Hnd & Hget).
  exists D. split_and!; [done|done| |].
  - intros d. split.
    + intros Hin. apply dict_keys_get in Hin as [v Hv].
      rewrite Hget in Hv. case_decide as Hd; [|done].
      apply list_elem_of_fmap in Hd as (m & -> & Hm). eauto.
    + intros (m & Hm & <-).
      apply (dict_get_Some_keys _ (paivan_summat (paiva m) ms)).
      rewrite Hget. rewrite decide_True; [done|].
      apply list_elem_of_fmap. eauto.
  - intros d v Hin. apply dict_elem_of_get in Hin; [|done].
    rewrite Hget in Hin. case_decide; [|done]. by simplify_eq.
Qed.

(** C5. No measurements give an empty mapping, and the report of an empty
    mapping is its heading alone; the run on no rows ends normally, whatever
    the parsers are. *)
Theorem empty_input_empty_report :
  laske_paivasummat [] = Ok []
  /\ tulosta_raportti [] = (otsikko, Ok tt)
  /\ forall float_of_string datetime_of_string,
       main float_of_string datetime_of_string [] = (otsikko, Ok tt).
Proof. split_and!; [reflexivity | reflexivity | intros; reflexivity]. Qed.

(** ** Sums of whole numbers are exact *)

Lemma Zpos_iter_xO (m k : positive) :
  Z.pos (Pos.iter xO m k) = Z.pos m * 2 ^ Z.pos k.
Proof.
  induction k as [|k IH] using Pos.peano_ind.
  - simpl. lia.
  - rewrite Pos.iter_succ, Pos2Z.inj_xO, IH, Pos2Z.inj_succ, Z.pow_succ_r; lia.
Qed.

Lemma Zpos_siirto (m : positive) (n : Z) :
  0 <= n -> Z.pos (siirto m n) = Z.pos m * 2 ^ n.
Proof.
  intros Hn. destruct n as [|k|k]; simpl siirto; [lia| |lia].
  apply Zpos_iter_xO.
Qed.

Lemma digits2_iter_xO (m k : positive) :
  Z.pos (digits2_pos (Pos.iter xO m k)) = Z.pos (digits2_pos m) + Z.pos k.
Proof.
  induction k as [|k IH] using Pos.peano_ind.
  - simpl. lia.
  - rewrite Pos.iter_succ. simpl digits2_pos. lia.
Qed.

Lemma digits2_siirto (m : positive) (n : Z) :
  0 <= n -> Z.pos (digits2_pos (siirto m n)) = Z.pos (digits2_pos m) + n.
Proof.
  intros Hn. destruct n as [|k|k]; simpl siirto; [lia| |lia].
  apply digits2_iter_xO.
Qed.

Lemma siirto_siirto (m : positive) (a b : Z) :
  0 <= a -> 0 <= b -> siirto (siirto m a) b = siirto m (a + b).
Proof.
  intros Ha Hb. apply Pos2Z.inj. rewrite !Zpos_siirto by lia.
  rewrite Z.pow_add_r by lia. lia.
Qed.

Lemma digits2_bounds (m : positive) :
  2 ^ (Z.pos (digits2_pos m) - 1) <= Z.pos m < 2 ^ Z.pos (digits2_pos m).
Proof.
  induction m as [m IH|m IH|]; simpl digits2_pos; [| |simpl; lia].
  all: rewrite Pos2Z.inj_succ.
  all: replace (Z.succ (Z.pos (digits2_pos m)) - 1)
         with (Z.succ (Z.pos (digits2_pos m) - 1)) by lia.
  all: rewrite !Z.pow_succ_r by lia.
  all: revert IH; generalize (2 ^ (Z.pos (digits2_pos m) - 1));
       generalize (2 ^ Z.pos (digits2_pos m)); intros hi lo IH; lia.
Qed.

Lemma digits2_le (m : positive) (k : Z) :
  0 <= k -> Z.pos m < 2 ^ k -> Z.pos (digits2_pos m) <= k.
Proof.
  intros Hk Hm. destruct (digits2_bounds m) as [Hlo _].
  destruct (Z_le_gt_dec (Z.pos (digits2_pos m)) k) as [|Hgt]; [done|].
  assert (2 ^ k <= 2 ^ (Z.pos (digits2_pos m) - 1)) by (apply Z.pow_le_mono_r; lia).
  lia.
Qed.

(** Shifting right the zeros that a left shift put in is exact. *)
Lemma shr_iter_xO (k m : positive) :
  SpecFloat.iter_pos shr_1 k {| shr_m := Z.pos (Pos.iter xO m k); shr_r := false; shr_s := false |}
  = {| shr_m := Z.pos m; shr_r := false; shr_s := false |}.
Proof.
  revert m. induction k as [k IH|k IH|]; intros m; simpl.
  - by rewrite !IH.
  - by rewrite !IH.
  - done.
Qed.

(** Rounding a number that is already in canonical form returns it. *)
Lemma binary_round_aux_canonical (s : bool) (m : positive) (e : Z) :
  Z.pos (digits2_pos m) = 53 -> -1074 <= e <= 971 ->
  binary_round_aux Float.prec Float.emax s (Z.pos m) e loc_Exact = S754_finite s m e.
Proof.
  intros Hd He. unfold binary_round_aux, shr_fexp, fexp, emin, Float.prec, Float.emax.
  simpl Zdigits2. rewrite Hd.
  replace (Z.max (53 + e - 53) (3 - 1024 - 53) - e) with 0 by lia. simpl.
  rewrite Hd.
  replace (Z.max (53 + e - 53) (3 - 1024 - 53) - e) with 0 by lia. simpl.
  destruct (Z.leb_spec e (1024 - 53)); [done|lia].
Qed.

(** Rounding [n * 2^j] at exponent [-j] gives the canonical form of [n]. *)
Lemma binary_round_siirto (s : bool) (n : positive) (j : Z) :
  Z.pos n < 2 ^ 53 -> 0 <= j ->
  binary_round Float.prec Float.emax s (siirto n j) (- j) = kanoninen s n.
Proof.
  intros Hn Hj.
  pose proof (digits2_le n 53 ltac:(lia) Hn) as Hd.
  assert (Hd0 : 0 < Z.pos (digits2_pos n)) by lia.
  unfold binary_round, kanoninen.
  rewrite digits2_siirto by done.
  unfold fexp, emin, Float.prec, Float.emax.
  replace (Z.max (Z.pos (digits2_pos n) + j + - j - 53) (3 - 1024 - 53))
    with (Z.pos (digits2_pos n) - 53) by lia.
  set (d := Z.pos (digits2_pos n)) in *.
  unfold shl_align.
  destruct (d - 53 - - j) as [|k|k] eqn:Hk.
  - (* already 53 bits *)
    replace (- j) with (d - 53) by lia. replace j with (53 - d) by lia.
    apply binary_round_aux_canonical; [|lia].
    rewrite digits2_siirto by lia. fold d. lia.
  - (* more than 53 bits: the low k bits are zero *)
    assert (Hsplit : siirto n j = Pos.iter xO (siirto n (53 - d)) k).
    { change (Pos.iter xO (siirto n (53 - d)) k) with (siirto (siirto n (53 - d)) (Z.pos k)).
      rewrite siirto_siirto by lia. f_equal. lia. }
    rewrite Hsplit.
    unfold binary_round_aux, shr_fexp, fexp, emin. simpl Zdigits2.
    rewrite digits2_iter_xO, digits2_siirto by lia. fold d.
    replace (Z.max (d + (53 - d) + Z.pos k + - j - 53) (3 - 1024 - 53) - - j)
      with (Z.pos k) by lia.
    unfold shr. simpl shr_record_of_loc. rewrite shr_iter_xO. simpl.
    rewrite digits2_siirto by lia. fold d.
    replace (Z.max (d + (53 - d) + (- j + Z.pos k) - 53) (3 - 1024 - 53) - (- j + Z.pos k))
      with 0 by lia.
    simpl. replace (- j + Z.pos k) with (d - 53) by lia.
    destruct (Z.leb_spec (d - 53) (1024 - 53)); [done|lia].
  - (* fewer than 53 bits: shift left *)
    change (Pos.iter xO (siirto n j) k) with (siirto (siirto n j) (Z.pos k)).
    rewrite siirto_siirto by lia. replace (j + Z.pos k) with (53 - d) by lia.
    apply binary_round_aux_canonical; [|lia].
    rewrite digits2_siirto by lia. fold d. lia.
Qed.

Lemma of_Z_kanoninen (s : bool) (n : positive) :
  Z.pos n < 2 ^ 53 -> Float.of_Z (cond_Zopp s (Z.pos n)) = kanoninen s n.
Proof.
  intros Hn. pose proof (binary_round_siirto s n 0 Hn ltac:(lia)) as H.
  destruct s; exact H.
Qed.

Lemma fst_shl_align (m : positive) (e e' : Z) :
  fst (shl_align m e e') = siirto m (e - e').
Proof.
  unfold shl_align. destruct (e' - e) as [|k|k] eqn:Hk; simpl.
  - by replace (e - e') with 0 by lia.
  - destruct (e - e') eqn:He; try done; lia.
  - by replace (e - e') with (Z.pos k) by lia.
Qed.

Lemma cond_Zopp_siirto (s : bool) (n : positive) (j : Z) :
  0 <= j -> cond_Zopp s (Z.pos (siirto n j)) = cond_Zopp s (Z.pos n) * 2 ^ j.
Proof. intros Hj. rewrite Zpos_siirto by done. destruct s; simpl; lia. Qed.

Lemma add_kanoninen (sa sb : bool) (na nb : positive) :
  Z.pos na < 2 ^ 53 -> Z.pos nb < 2 ^ 53 ->
  Z.abs (cond_Zopp sa (Z.pos na) + cond_Zopp sb (Z.pos nb)) < 2 ^ 53 ->
  Float.add (kanoninen sa na) (kanoninen sb nb)
  = Float.of_Z (cond_Zopp sa (Z.pos na) + cond_Zopp sb (Z.pos nb)).
Proof.
  intros Ha Hb Hab.
  pose proof (digits2_le na 53 ltac:(lia) Ha) as Hda.
  pose proof (digits2_le nb 53 ltac:(lia) Hb) as Hdb.
  unfold Float.add, kanoninen, SFadd. rewrite !fst_shl_align.
  set (da := Z.pos (digits2_pos na)) in *. set (db := Z.pos (digits2_pos nb)) in *.
  set (ez := Z.min (da - 53) (db - 53)).
  assert (Hez : ez <= 0) by lia.
  rewrite !siirto_siirto by lia.
  replace (53 - da + (da - 53 - ez)) with (- ez) by lia.
  replace (53 - db + (db - 53 - ez)) with (- ez) by lia.
  rewrite !cond_Zopp_siirto by lia. rewrite <- Z.mul_add_distr_r.
  set (c := cond_Zopp sa (Z.pos na) + cond_Zopp sb (Z.pos nb)) in *.
  assert (Hpow : 0 < 2 ^ (- ez)) by (apply Z.pow_pos_nonneg; lia).
  destruct c as [|pc|pc] eqn:Hc.
  - done.
  - assert (Hm : Z.pos pc * 2 ^ (- ez) = Z.pos (siirto pc (- ez)))
      by (rewrite Zpos_siirto; lia).
    rewrite Hm. unfold binary_normalize.
    replace ez with (- - ez) at 2 by lia.
    rewrite binary_round_siirto by lia.
    symmetry. apply (of_Z_kanoninen false). lia.
  - assert (Hm : Z.neg pc * 2 ^ (- ez) = Z.neg (siirto pc (- ez))).
    { apply Z.opp_inj. rewrite Pos2Z.opp_neg, Zpos_siirto by lia. lia. }
    rewrite Hm. unfold binary_normalize.
    replace ez with (- - ez) at 2 by lia.
    rewrite binary_round_siirto by lia.
    symmetry. apply (of_Z_kanoninen true). lia.
Qed.

Lemma of_Z_cases (a : Z) :
  Z.abs a < 2 ^ 53 ->
  (a = 0 /\ Float.of_Z a = S754_zero false)
  \/ exists s n, a = cond_Zopp s (Z.pos n) /\ Z.pos n < 2 ^ 53
                 /\ Float.of_Z a = kanoninen s n.
Proof.
  intros Ha. destruct a as [|n|n].
  - by left.
  - right. exists false, n. split_and!; [done|lia|]. apply (of_Z_kanoninen false). lia.
  - right. exists true, n. split_and!; [done|lia|]. apply (of_Z_kanoninen true). lia.
Qed.

(** Adding two whole numbers is exact as long as the sum stays below [2^53]:
    binary64 addition has nothing to round there. *)
Lemma add_of_Z (a b : Z) :
  Z.abs a < 2 ^ 53 -> Z.abs b < 2 ^ 53 -> Z.abs (a + b) < 2 ^ 53 ->
  Float.add (Float.of_Z a) (Float.of_Z b) = Float.of_Z (a + b).
Proof.
  intros Ha Hb Hab.
  destruct (of_Z_cases a Ha) as [[-> Ea]|(sa & na & -> & Hna & Ea)];
    destruct (of_Z_cases b Hb) as [[-> Eb]|(sb & nb & -> & Hnb & Eb)].
  - done.
  - rewrite Z.add_0_l, Eb. reflexivity.
  - rewrite Z.add_0_r, Ea. reflexivity.
  - rewrite Ea, Eb. by apply add_kanoninen.
Qed.

Lemma Zsumma_fmap_cons {A : Type} (f : A -> Z) (x : A) (xs : list A) :
  Zsumma (f <$> x :: xs) = f x + Zsumma (f <$> xs).
Proof. reflexivity. Qed.

Lemma itseisarvot_nonneg (r : wh_rivi) : 0 <= itseisarvot r.
Proof. destruct r as [[p [[k1 k2] k3]] [[t1 t2] t3]]. simpl. lia. Qed.

Lemma Zsumma_nonneg (zs : list wh_rivi) : 0 <= Zsumma (itseisarvot <$> zs).
Proof.
  induction zs as [|r zs IH]; [done|].
  rewrite Zsumma_fmap_cons. pose proof (itseisarvot_nonneg r). lia.
Qed.

Lemma Zsumma_Permutation (xs ys : list Z) : xs ≡ₚ ys -> Zsumma xs = Zsumma ys.
Proof. induction 1; simpl; lia. Qed.

Lemma fold_add_of_Z (f : wh_rivi -> Z) (zs : list wh_rivi) (acc : Z) :
  (forall r, Z.abs (f r) <= itseisarvot r) ->
  Z.abs acc + Zsumma (itseisarvot <$> zs) < 2 ^ 53 ->
  fold_left Float.add ((fun r => Float.of_Z (f r)) <$> zs) (Float.of_Z acc)
  = Float.of_Z (acc + Zsumma (f <$> zs)).
Proof.
  intros Hf. revert acc. induction zs as [|r zs IH]; intros acc Hacc.
  - simpl. by rewrite Z.add_0_r.
  - rewrite Zsumma_fmap_cons in Hacc. rewrite Zsumma_fmap_cons, fmap_cons.
    simpl fold_left.
    pose proof (Hf r). pose proof (Zsumma_nonneg zs).
    rewrite add_of_Z by lia. rewrite IH by lia. f_equal. lia.
Qed.

Lemma summa_of_Z (f : wh_rivi -> Z) (zs : list wh_rivi) :
  (forall r, Z.abs (f r) <= itseisarvot r) ->
  Zsumma (itseisarvot <$> zs) < 2 ^ 53 ->
  summa ((fun r => Float.of_Z (f r)) <$> zs) = Float.of_Z (Zsumma (f <$> zs)).
Proof.
  intros Hf Hzs. unfold summa.
  change Float.zero with (Float.of_Z 0). rewrite (fold_add_of_Z f) by (done || (simpl Z.abs; lia)).
  done.
Qed.

(** The sum of one phase of whole watt-hours does not depend on the order
    of the rows. *)
Lemma summa_vaihe_kokonaisia
    (sel : tuple3 float -> float) (g : mittaus -> tuple3 float) (f : wh_rivi -> Z)
    (zs zs' : list wh_rivi) :
  (forall r, sel (g (mittaus_of_wh r)) = Float.of_Z (f r)) ->
  (forall r, Z.abs (f r) <= itseisarvot r) ->
  zs ≡ₚ zs' ->
  Zsumma (itseisarvot <$> zs) < 2 ^ 53 ->
  summa (sel <$> (g <$> (mittaus_of_wh <$> zs)))
  = summa (sel <$> (g <$> (mittaus_of_wh <$> zs'))).
Proof.
  intros Hsel Hf Hp Hzs.
  assert (Hzs' : Zsumma (itseisarvot <$> zs') < 2 ^ 53).
  { by rewrite <- (Zsumma_Permutation _ _ (fmap_Permutation itseisarvot _ _ Hp)). }
  assert (Hmap : forall l : list wh_rivi,
             sel <$> (g <$> (mittaus_of_wh <$> l)) = (fun r => Float.of_Z (f r)) <$> l).
  { intros l. rewrite <- !list_fmap_compose. apply list_fmap_ext. intros ? r _. apply Hsel. }
  rewrite !Hmap, !summa_of_Z by done.
  by rewrite (Zsumma_Permutation _ _ (fmap_Permutation f _ _ Hp)).
Qed.

(** One phase of [vaihesummat]: [g] selects consumption or production, [f]
    the integer the phase stands for. *)
Ltac vaihe g f :=
  apply (summa_vaihe_kokonaisia _ g f); try done;
  intros [[? [[? ?] ?]] [[? ?] ?]]; simpl; [done|lia].

Lemma vaihesummat_kokonaisia (zs zs' : list wh_rivi) :
  zs ≡ₚ zs' ->
  Zsumma (itseisarvot <$> zs) < 2 ^ 53 ->
  vaihesummat (kulutus <$> (mittaus_of_wh <$> zs))
  = vaihesummat (kulutus <$> (mittaus_of_wh <$> zs'))
  /\ vaihesummat (tuotanto <$> (mittaus_of_wh <$> zs))
     = vaihesummat (tuotanto <$> (mittaus_of_wh <$> zs')).
Proof.
  intros Hp Hzs. unfold vaihesummat.
  split; (f_equal; [|f_equal; [|f_equal]]).
  - vaihe kulutus (fun r : wh_rivi => r.1.2.1.1).
  - vaihe kulutus (fun r : wh_rivi => r.1.2.1.2).
  - vaihe kulutus (fun r : wh_rivi => r.1.2.2).
  - vaihe tuotanto (fun r : wh_rivi => r.2.1.1).
  - vaihe tuotanto (fun r : wh_rivi => r.2.1.2).
  - vaihe tuotanto (fun r : wh_rivi => r.2.2).
Qed.

(** The totals of a day of whole watt-hours are those of any rearrangement
    of its rows. *)
Lemma paivan_summat_kokonaisia (d : date) (ms ms' : list mittaus) :
  ms ≡ₚ ms' ->
  kokonaisia (paivan_rivit d ms) ->
  paivan_summat d ms = paivan_summat d ms'.
Proof.
  intros Hp (zs & Hrows & Hzs).
  assert (Hp' : paivan_rivit d ms' ≡ₚ mittaus_of_wh <$> zs).
  { rewrite <- Hrows. unfold paivan_rivit. by rewrite Hp. }
  apply Permutation_map_inv in Hp' as (zs' & Hrows' & Hzz).
  unfold paivan_summat, paivan_summat_wh. rewrite Hrows.
  change (map mittaus_of_wh zs') with (mittaus_of_wh <$> zs') in Hrows'.
  rewrite Hrows'.
  destruct (vaihesummat_kokonaisia zs zs' Hzz Hzs) as [-> ->]. done.
Qed.

(** *** Row order within a day *)

Example iso_parsed :
  Parse.float_of_string "1e308" = Some iso
  /\ Parse.float_of_string "-1e308" = Some iso_neg
  /\ valid_binary Float.prec Float.emax iso = true.
Proof. by vm_compute. Qed.

(** C2, as stated, fails: the same three rows of one day give an infinite
    total in one order and a finite total in the other. *)
Lemma laske_paivasummat_order_counterexample :
  jarjestys_1 ≡ₚ jarjestys_2
  /\ exists D1 D2 t1 t2,
       laske_paivasummat jarjestys_1 = Ok D1
       /\ laske_paivasummat jarjestys_2 = Ok D2
       /\ kulutus_kwh <$> dict_get ma_14_10 D1 = Some [S754_infinity false; t1; t1]
       /\ kulutus_kwh <$> dict_get ma_14_10 D2 = Some [t2; t1; t1]
       /\ Float.is_finite t2 = true
       /\ dict_get ma_14_10 D1 <> dict_get ma_14_10 D2.
Proof.
  split.
  - unfold jarjestys_1, jarjestys_2. apply Permutation_skip, Permutation_swap.
  - eexists _, _, _, _. split_and!; [by vm_compute .. | ].
    vm_compute. discriminate.
Qed.

(** Ordinary values show it too: 0.1 + 0.2 + 0.3 and 0.3 + 0.2 + 0.1 differ
    in the last bit, and so do the totals. *)
Example laske_paivasummat_last_bit :
  forall x1 x2 x3,
    Parse.float_of_string "0.1" = Some x1 ->
    Parse.float_of_string "0.2" = Some x2 ->
    Parse.float_of_string "0.3" = Some x3 ->
    laske_paivasummat (rivi_v1 ma_14_10 <$> [x1; x2; x3])
    <> laske_paivasummat (rivi_v1 ma_14_10 <$> [x3; x2; x1]).
Proof. intros x1 x2 x3 H1 H2 H3. vm_compute in H1, H2, H3. simplify_eq. by vm_compute. Qed.

(** Converting each row before adding is not what the aggregator does: for
    the rows 100, 200 and 300 Wh it returns 600 / 1000, not
    0.1 + 0.2 + 0.3. *)
Example laske_paivasummat_converts_once :
  forall x, Parse.float_of_string "0.6" = Some x ->
    kulutus_kwh <$>
      (laske_paivasummat (rivi_v1 ma_14_10 <$> [Float.of_Z 100; Float.of_Z 200; Float.of_Z 300])
         ≫= dict_getitem ma_14_10)
    = Ok [x; Float.zero; Float.zero]
    /\ summa (kwh <$> [Float.of_Z 100; Float.of_Z 200; Float.of_Z 300]) <> x.
Proof. intros x Hx. vm_compute in Hx. simplify_eq. by vm_compute. Qed.

(** C2, amended. A permutation of the rows leaves the set of days
    unchanged, and leaves the totals of a day unchanged when the rows of that
    day keep their relative order, or when they are whole numbers of
    watt-hours whose magnitudes add up to less than 2^53. *)
Theorem laske_paivasummat_permutation (ms ms' : list mittaus) :
  ms ≡ₚ ms' ->
  exists D D',
    laske_paivasummat ms = Ok D
    /\ laske_paivasummat ms' = Ok D'
    /\ forall d,
         (d ∈ dict_keys D <-> d ∈ dict_keys D')
         /\ (paivan_rivit d ms = paivan_rivit d ms' \/ kokonaisia (paivan_rivit d ms) ->
             dict_get d D = dict_get d D').
Proof.
  intros Hp.
  destruct (laske_paivasummat_lookup ms) as (D & HD & Hnd & Hget).
  destruct (laske_paivasummat_lookup ms') as (D' & HD' & Hnd' & Hget').
  exists D, D'. split_and!; [done|done|]. intros d.
  assert (Hdays : d ∈ paivat ms <-> d ∈ paivat ms').
  { unfold paivat. by rewrite Hp. }
  split.
  - split; intros [v Hv]%dict_keys_get.
    + rewrite Hget in Hv. case_decide as Hd; [|done].
      apply (dict_get_Some_keys _ (paivan_summat d ms')). rewrite Hget'.
      rewrite decide_True; [done|]. by apply Hdays.
    + rewrite Hget' in Hv. case_decide as Hd; [|done].
      apply (dict_get_Some_keys _ (paivan_summat d ms)). rewrite Hget.
      rewrite decide_True; [done|]. by apply Hdays.
  - intros Hrows. rewrite Hget, Hget'.
    assert (Hsum : paivan_summat d ms = paivan_summat d ms').
    { destruct Hrows as [Hrows|Hkok].
      - unfold paivan_summat, paivan_summat_wh. by rewrite Hrows.
      - by apply paivan_summat_kokonaisia. }
    rewrite Hsum. destruct (decide (d ∈ paivat ms)) as [Hd|Hd].
    + rewrite decide_True; [done|]. by apply Hdays.
    + rewrite decide_False; [done|]. by rewrite <- Hdays.
Qed.

(** The rows of Monday change places, between them the row of Tuesday. *)
Lemma laske_paivasummat_permutation_witness :
  exists D D',
    laske_paivasummat lomitus_1 = Ok D
    /\ laske_paivasummat (rev lomitus_1) = Ok D'
    /\ (forall d, d ∈ dict_keys D <-> d ∈ dict_keys D')
    /\ dict_get ma_14_10 D = dict_get ma_14_10 D'
    /\ dict_get ti_15_10 D = dict_get ti_15_10 D'.
Proof.
  destruct (laske_paivasummat_permutation lomitus_1 (rev lomitus_1))
    as (D & D' & HD & HD' & H).
  { apply Permutation_rev. }
  exists D, D'. split_and!; [done | done | intros d; apply H | |].
  - apply H. right.
    exists [(ma_14_10, (500, 0, 0), (0, 0, 0)); (ma_14_10, (1500, 0, 0), (0, 0, 0))].
    split; reflexivity.
  - apply H. left. reflexivity.
Defined.

Example laske_paivasummat_kokonaisia :
  laske_paivasummat lomitus_1 ≫= dict_getitem ma_14_10
  = Ok {| kulutus_kwh := [Float.of_Z 2; Float.zero; Float.zero];
          tuotanto_kwh := [Float.zero; Float.zero; Float.zero] |}
  /\ laske_paivasummat (rev lomitus_1) ≫= dict_getitem ma_14_10
     = Ok {| kulutus_kwh := [Float.of_Z 2; Float.zero; Float.zero];
             tuotanto_kwh := [Float.zero; Float.zero; Float.zero] |}.
Proof. by vm_compute. Qed.

(** ** The order of dates *)

Lemma date_le_spec (a b : date) :
  date_le a b <->
  year a < year b
  \/ (year a = year b
      /\ (month a < month b \/ (month a = month b /\ day a <= day b))).
Proof.
  unfold date_le, date_leb.
  rewrite !orb_true_iff, !andb_true_iff, !orb_true_iff, !andb_true_iff.
  rewrite !Z.ltb_lt, !Z.eqb_eq, Z.leb_le. tauto.
Qed.

#[global] Instance date_le_total : Total date_le.
Proof. intros a b. rewrite !date_le_spec. lia. Qed.

#[global] Instance date_le_trans : Transitive date_le.
Proof. intros a b c. rewrite !date_le_spec. lia. Qed.

#[global] Instance date_le_antisymm : AntiSymm (=) date_le.
Proof.
  intros [ya ma da] [yb mb db]. rewrite !date_le_spec. simpl.
  intros Hab Hba. f_equal; lia.
Qed.

Lemma sorted_Permutation (xs : list date) : sorted xs ≡ₚ xs.
Proof. apply merge_sort_Permutation. Qed.

Lemma sorted_StronglySorted (xs : list date) : StronglySorted date_le (sorted xs).
Proof. apply StronglySorted_merge_sort; apply _. Qed.

(** The result of [sorted] depends on the elements only, not on their
    order in the argument. *)
Lemma sorted_unique (xs ys : list date) : xs ≡ₚ ys -> sorted xs = sorted ys.
Proof.
  intros Hp. apply (StronglySorted_unique date_le).
  - apply sorted_StronglySorted.
  - apply sorted_StronglySorted.
  - by rewrite !sorted_Permutation.
Qed.

Lemma StronglySorted_strict (xs : list date) :
  StronglySorted date_le xs -> NoDup xs -> StronglySorted date_lt xs.
Proof.
  induction 1 as [|x xs Hs IH Hall]; intros Hnd; [constructor|].
  apply NoDup_cons in Hnd as [Hx Hnd]. constructor; [auto|].
  rewrite Forall_forall in *. intros y Hy. split; [by apply Hall|].
  intros ->. by apply Hx.
Qed.

(** ** The weekday *)

Lemma weekday_range (p : date) : 0 <= weekday p <= 6.
Proof. unfold weekday. pose proof (Z.mod_pos_bound (toordinal p + 6) 7). lia. Qed.

Lemma list_getitem_nimet (w : Z) :
  0 <= w <= 6 ->
  exists nimi, list_getitem nimet w = Ok nimi /\ nimet !! Z.to_nat w = Some nimi.
Proof.
  intros Hw. rewrite <- (Z2Nat.id w) by lia.
  assert (Hk : (Z.to_nat w < 7)%nat) by lia. revert Hk.
  generalize (Z.to_nat w). intros k Hk. rewrite Nat2Z.id.
  do 7 (destruct k as [|k]; [eexists; split; reflexivity|]). lia.
Qed.

(** C10. The weekday of every date lies between 0 and 6, so the look-up in
    the list of names never fails: it returns the name at that position, one
    of the seven. *)
Theorem viikonpaivan_nimi_total (p : date) :
  0 <= weekday p <= 6
  /\ exists nimi,
       viikonpaivan_nimi p = Ok nimi
       /\ nimet !! Z.to_nat (weekday p) = Some nimi
       /\ nimi ∈ nimet.
Proof.
  split; [apply weekday_range|].
  destruct (list_getitem_nimet (weekday p) (weekday_range p)) as (nimi & Hn & Hl).
  exists nimi. split_and!; [done|done|]. by eapply list_elem_of_lookup_2.
Qed.

Lemma weekday_weeks_from (p q : date) (k : Z) :
  toordinal p = toordinal q + 7 * k -> weekday p = weekday q.
Proof.
  unfold weekday. intros ->.
  replace (toordinal q + 7 * k + 6) with (toordinal q + 6 + k * 7) by lia.
  apply Z_mod_plus_full.
Qed.

(** C8. The names are looked up in the seven-element list that starts with
    Monday: a date whose weekday is 0 (any date a whole number of weeks from
    Monday 14 October 2024) is named maanantai, and one whose weekday is 6
    (a whole number of weeks from Sunday 20 October 2024) is named
    sunnuntai. *)
Theorem viikonpaivan_nimi_monday_sunday (p : date) :
  length nimet = 7%nat
  /\ (weekday p = 0 -> viikonpaivan_nimi p = Ok "maanantai")
  /\ (weekday p = 6 -> viikonpaivan_nimi p = Ok "sunnuntai")
  /\ (forall k, toordinal p = toordinal (Date 2024 10 14) + 7 * k ->
        viikonpaivan_nimi p = Ok "maanantai")
  /\ (forall k, toordinal p = toordinal (Date 2024 10 20) + 7 * k ->
        viikonpaivan_nimi p = Ok "sunnuntai").
Proof.
  unfold viikonpaivan_nimi. split_and!; [done | by intros -> | by intros -> | |].
  - intros k Hk. by rewrite (weekday_weeks_from _ _ _ Hk).
  - intros k Hk. by rewrite (weekday_weeks_from _ _ _ Hk).
Qed.

(** 14 October 2024 was a Monday and 20 October 2024 a Sunday; so were
    7 October and 27 October. *)
Lemma viikonpaivan_nimi_monday_sunday_witness :
  (weekday (Date 2024 10 14) = 0
   /\ viikonpaivan_nimi (Date 2024 10 14) = Ok "maanantai")
  /\ (weekday (Date 2024 10 20) = 6
      /\ viikonpaivan_nimi (Date 2024 10 20) = Ok "sunnuntai")
  /\ viikonpaivan_nimi (Date 2024 10 7) = Ok "maanantai"
  /\ viikonpaivan_nimi (Date 2024 10 27) = Ok "sunnuntai".
Proof.
  split; [|split; [|split]].
  - split; [reflexivity|].
    apply (proj1 (proj2 (viikonpaivan_nimi_monday_sunday (Date 2024 10 14)))).
    reflexivity.
  - split; [reflexivity|].
    apply (proj1 (proj2 (proj2 (viikonpaivan_nimi_monday_sunday (Date 2024 10 20))))).
    reflexivity.
  - apply (proj1 (proj2 (proj2 (proj2
             (viikonpaivan_nimi_monday_sunday (Date 2024 10 7))))) (-1)).
    reflexivity.
  - apply (proj2 (proj2 (proj2 (proj2
             (viikonpaivan_nimi_monday_sunday (Date 2024 10 27))))) 1).
    reflexivity.
Defined.

Example viikko_42 :
  (fun p => default ""%string (match viikonpaivan_nimi p with Ok n => Some n | Raise _ => None end))
    <$> [Date 2024 10 14; Date 2024 10 15; Date 2024 10 16; Date 2024 10 17;
         Date 2024 10 18; Date 2024 10 19; Date 2024 10 20; Date 2000 2 29;
         Date 1 1 1; Date 9999 12 31]
  = ["maanantai"; "tiistai"; "keskiviikko"; "torstai"; "perjantai"; "lauantai";
     "sunnuntai"; "tiistai"; "maanantai"; "perjantai"]%string.
Proof. reflexivity. Qed.

(** ** The value formatter *)

Lemma str_replace_app (old new : ascii) (s t : string) :
  str_replace old new (s +:+ t) = str_replace old new s +:+ str_replace old new t.
Proof. induction s as [|c s IH]; simpl; [done|]. by rewrite IH. Qed.

Lemma str_replace_numeroita (s : string) :
  numeroita s -> str_replace "." "," s = s.
Proof.
  unfold numeroita. induction s as [|c s IH]; simpl; [done|].
  intros [Hc Hs]%andb_true_iff. rewrite IH by done. f_equal.
  destruct (Ascii.eqb_spec c ".") as [->|]; [discriminate|done].
Qed.

Lemma numeroita_app (s t : string) : numeroita s -> numeroita t -> numeroita (s +:+ t).
Proof.
  unfold numeroita. induction s as [|c s IH]; simpl; [done|].
  intros [Hc Hs]%andb_true_iff Ht. rewrite Hc. simpl. auto.
Qed.

Lemma numeroita_uint (d : Decimal.uint) : numeroita (NilEmpty.string_of_uint d).
Proof. unfold numeroita. induction d; simpl; auto. Qed.

Lemma str_of_Z_numeroita (n : Z) : 0 <= n -> numeroita (str_of_Z n) /\ str_of_Z n <> "".
Proof.
  intros Hn. unfold str_of_Z. destruct n as [|p|p]; [done| |lia].
  simpl. unfold NilZero.string_of_uint.
  destruct (Pos.to_uint p) eqn:E; try done;
    (split; [rewrite <- E; rewrite E; apply numeroita_uint | discriminate]).
Qed.

Lemma str_of_Z_digit (n : Z) :
  0 <= n < 10 -> exists k, str_of_Z n = String k "" /\ Parse.is_digit k = true.
Proof.
  intros Hn. rewrite <- (Z2Nat.id n) by lia.
  assert (Hk : (Z.to_nat n < 10)%nat) by lia. revert Hk.
  generalize (Z.to_nat n). intros k Hk.
  do 10 (destruct k as [|k]; [eexists; split; reflexivity|]). lia.
Qed.

Lemma kaksi_numeroa_digits (n : Z) :
  0 <= n < 100 ->
  exists k1 k2, kaksi_numeroa n = String k1 (String k2 "")
                /\ Parse.is_digit k1 = true /\ Parse.is_digit k2 = true.
Proof.
  intros Hn. unfold kaksi_numeroa.
  destruct (str_of_Z_digit (n / 10)) as (k1 & -> & H1).
  { split; [apply Z.div_pos; lia | apply Z.div_lt_upper_bound; lia]. }
  destruct (str_of_Z_digit (n mod 10)) as (k2 & -> & H2).
  { apply Z.mod_pos_bound. lia. }
  by exists k1, k2.
Qed.

Lemma div_half_even_nonneg (a d : Z) : 0 <= a -> 0 < d -> 0 <= div_half_even a d.
Proof.
  intros Ha Hd. unfold div_half_even.
  assert (0 <= a / d) by (apply Z.div_pos; lia).
  destruct (2 * (a mod d) ?= d); [destruct (Z.even (a / d))| |]; lia.
Qed.

Lemma sadasosat_nonneg (m : positive) (e : Z) : 0 <= sadasosat m e.
Proof.
  unfold sadasosat. destruct (0 <=? e) eqn:E.
  - apply Z.leb_le in E. assert (0 < 2 ^ e) by (apply Z.pow_pos_nonneg; lia). nia.
  - apply Z.leb_gt in E. apply div_half_even_nonneg; [lia|].
    apply Z.pow_pos_nonneg; lia.
Qed.

Lemma format_2f_finite (x : float) :
  Float.is_finite x = true ->
  exists (s : bool) (kokonaiset : string) (k1 k2 : ascii),
    format_2f x = etumerkki s +:+ kokonaiset +:+ "." +:+ String k1 (String k2 "")
    /\ kokonaiset <> ""
    /\ numeroita kokonaiset
    /\ Parse.is_digit k1 = true
    /\ Parse.is_digit k2 = true.
Proof.
  destruct x as [s|s| |s m e]; simpl; try discriminate; intros _.
  - by exists s, "0"%string, "0"%char, "0"%char.
  - pose proof (sadasosat_nonneg m e) as Hn.
    destruct (kaksi_numeroa_digits (sadasosat m e mod 100)) as (k1 & k2 & -> & H1 & H2).
    { apply Z.mod_pos_bound. lia. }
    destruct (str_of_Z_numeroita (sadasosat m e / 100)) as [Hd Hne].
    { apply Z.div_pos; lia. }
    by exists s, (str_of_Z (sadasosat m e / 100)), k1, k2.
Qed.

(** C7, as stated, fails: an infinite value, which the loader accepts and
    which sums overflow to, is rendered without any digit. *)
Lemma muotoile_kwh_inf_counterexample :
  Parse.float_of_string "inf" = Some (S754_infinity false)
  /\ muotoile_kwh (S754_infinity false) = "inf"
  /\ ~ kaksi_desimaalia (muotoile_kwh (S754_infinity false)).
Proof.
  split_and!; [reflexivity | reflexivity |].
  intros (merkki & kok & k1 & k2 & Heq & Hm & Hne & Hnum & _).
  change (muotoile_kwh (S754_infinity false)) with "inf"%string in Heq.
  destruct Hm as [-> | ->]; [|discriminate].
  destruct kok as [|c kok]; [done|].
  simpl in Heq. injection Heq as <- _.
  unfold numeroita in Hnum. simpl in Hnum. discriminate.
Qed.

(** C7, amended. Every finite value is rendered as an optional minus sign,
    its whole part, a comma and exactly two decimals; 1.5 is rendered as
    1,50 and 0 as 0,00. *)
Theorem muotoile_kwh_two_decimals (x : float) :
  Float.is_finite x = true ->
  kaksi_desimaalia (muotoile_kwh x)
  /\ muotoile_kwh puolitoista = "1,50"
  /\ muotoile_kwh Float.zero = "0,00".
Proof.
  intros Hx. split_and!; [|reflexivity|reflexivity].
  destruct (format_2f_finite x Hx) as (s & kok & k1 & k2 & Heq & Hne & Hnum & H1 & H2).
  exists (etumerkki s), kok, k1, k2. split_and!; try done.
  - unfold muotoile_kwh. rewrite Heq, !str_replace_app.
    rewrite (str_replace_numeroita kok) by done.
    assert (Hs : str_replace "." "," (etumerkki s) = etumerkki s) by by destruct s.
    assert (Hk : str_replace "." "," (String k1 (String k2 "")) = String k1 (String k2 "")).
    { apply str_replace_numeroita. unfold numeroita. simpl. by rewrite H1, H2. }
    by rewrite Hs, Hk.
  - destruct s; auto.
Qed.

Lemma muotoile_kwh_two_decimals_witness :
  kaksi_desimaalia (muotoile_kwh (kwh (Float.of_Z 2675)))
  /\ muotoile_kwh puolitoista = "1,50"
  /\ muotoile_kwh Float.zero = "0,00".
Proof.
  apply (muotoile_kwh_two_decimals (kwh (Float.of_Z 2675))).
  reflexivity.
Defined.

Example muotoile_kwh_examples :
  Parse.float_of_string "1.5" = Some puolitoista
  /\ valid_binary Float.prec Float.emax puolitoista = true
  /\ (muotoile_kwh <$> [Float.of_Z 0; Float.of_Z 2; Float.of_Z (-3);
                       kwh (Float.of_Z 2675); kwh (Float.of_Z 125);
                       kwh (Float.of_Z 375); S754_zero true;
                       kwh (Float.of_Z 123456789)])
     = ["0,00"; "2,00"; "-3,00"; "2,67"; "0,12"; "0,38"; "-0,00"; "123456,79"]%string
  /\ (muotoile_kwh <$> [S754_infinity true; S754_nan]) = ["-inf"; "nan"]%string.
Proof. by vm_compute. Qed.

(** ** The reporter *)

Lemma tulosta_rivi_ok (ps : dict date summat_kwh) (p : date) (v : summat_kwh) :
  dict_get p ps = Some v -> kolmikot v -> exists r, tulosta_rivi ps p = Ok r.
Proof.
  intros Hget [Hk Ht]. unfold tulosta_rivi.
  unfold viikonpaivan_nimi.
  destruct (list_getitem_nimet (weekday p) (weekday_range p)) as (nimi & -> & _).
  unfold dict_getitem. rewrite Hget.
  destruct v as [[|a0 [|a1 [|a2 [|]]]] [|b0 [|b1 [|b2 [|]]]]]; simplify_eq/=.
  eauto.
Qed.

Lemma tulosta_rivit_ok (ps : dict date summat_kwh) (days : list date) :
  Forall (fun p => exists r, tulosta_rivi ps p = Ok r) days ->
  exists rivit,
    tulosta_rivit ps days = (rivit, Ok tt)
    /\ Forall2 (fun p r => tulosta_rivi ps p = Ok r) days rivit.
Proof.
  induction 1 as [|p days [r Hr] _ (rivit & IH & Hall)]; simpl.
  - by exists [].
  - rewrite Hr, IH. exists (r :: rivit). split; [done|]. by constructor.
Qed.

Lemma tulosta_rivi_ext (ps ps' : dict date summat_kwh) (p : date) :
  (forall d, dict_get d ps' = dict_get d ps) ->
  tulosta_rivi ps' p = tulosta_rivi ps p.
Proof. intros Hext. unfold tulosta_rivi, dict_getitem. by rewrite Hext. Qed.

Lemma tulosta_rivit_ext (ps ps' : dict date summat_kwh) (days : list date) :
  (forall d, dict_get d ps' = dict_get d ps) ->
  tulosta_rivit ps' days = tulosta_rivit ps days.
Proof.
  intros Hext. induction days as [|p days IH]; simpl; [done|].
  by rewrite IH, (tulosta_rivi_ext ps ps').
Qed.

(** C6. For a mapping from days to totals the report is the heading followed
    by exactly one row per day, the days in strictly ascending order; a
    mapping with the same entries inserted in another order gives the same
    report. *)
Theorem tulosta_raportti_sorted (ps : dict date summat_kwh) :
  NoDup (dict_keys ps) ->
  Forall (fun pv => kolmikot pv.2) ps ->
  exists days rivit,
    tulosta_raportti ps = (otsikko ++ rivit, Ok tt)
    /\ days ≡ₚ dict_keys ps
    /\ StronglySorted date_lt days
    /\ Forall2 (fun p r => tulosta_rivi ps p = Ok r) days rivit
    /\ forall ps', ps' ≡ₚ ps -> tulosta_raportti ps' = tulosta_raportti ps.
Proof.
  intros Hnd Hk.
  assert (Hperm : sorted (dict_keys ps) ≡ₚ dict_keys ps) by apply sorted_Permutation.
  destruct (tulosta_rivit_ok ps (sorted (dict_keys ps))) as (rivit & Hr & Hall).
  { apply Forall_forall. intros p Hp. rewrite Hperm in Hp.
    apply dict_keys_get in Hp as [v Hv]. apply (tulosta_rivi_ok ps p v Hv).
    rewrite Forall_forall in Hk. apply (Hk (p, v)). by apply dict_get_elem_of. }
  exists (sorted (dict_keys ps)), rivit. split_and!; try done.
  - unfold tulosta_raportti. by rewrite Hr.
  - apply StronglySorted_strict; [apply sorted_StronglySorted|]. by rewrite Hperm.
  - intros ps' Hp. unfold tulosta_raportti.
    rewrite (sorted_unique (dict_keys ps') (dict_keys ps))
      by (unfold dict_keys; by rewrite Hp).
    rewrite (tulosta_rivit_ext ps ps'); [done|].
    intros d. symmetry. by apply dict_get_Permutation.
Qed.

Lemma tulosta_raportti_sorted_witness :
  exists days rivit,
    tulosta_raportti ti_ma = (otsikko ++ rivit, Ok tt)
    /\ days ≡ₚ dict_keys ti_ma
    /\ StronglySorted date_lt days
    /\ Forall2 (fun p r => tulosta_rivi ti_ma p = Ok r) days rivit
    /\ forall ps', ps' ≡ₚ ti_ma -> tulosta_raportti ps' = tulosta_raportti ti_ma.
Proof.
  apply (tulosta_raportti_sorted ti_ma).
  - apply (bool_decide_unpack _). reflexivity.
  - repeat constructor.
Defined.

Example tulosta_raportti_ti_ma :
  laske_paivasummat lomitus_2 = Ok ti_ma
  /\ tulosta_raportti ti_ma
     = (otsikko ++
        ["maanantai    14.10.2024      2,00    0,00    0,00    0,00    0,00    0,00";
         "tiistai      15.10.2024      0,01    0,00    0,00    0,00    0,00    0,00"]%string,
        Ok tt).
Proof. by vm_compute. Qed.

(** ** The loader *)

Section LoaderFacts.

Variable float_of_string : string -> option float.
Variable datetime_of_string : string -> option datetime.

Local Abbreviation py_float := (py_float float_of_string).
Local Abbreviation fromisoformat := (fromisoformat datetime_of_string).
Local Abbreviation lue_rivi := (lue_rivi float_of_string datetime_of_string).
Local Abbreviation lue_data := (lue_data float_of_string datetime_of_string).
Local Abbreviation main := (main float_of_string datetime_of_string).
Local Abbreviation ei_numero := (ei_numero float_of_string).
Local Abbreviation huono_aika := (huono_aika datetime_of_string).
Local Abbreviation virheellinen := (virheellinen float_of_string datetime_of_string).
Local Abbreviation kentta_on := (kentta_on float_of_string).
Local Abbreviation aika_on := (aika_on datetime_of_string).
Local Abbreviation vastaa := (vastaa float_of_string datetime_of_string).

Lemma kentta_on_ok (r : rivi) (k : string) (x : float) :
  kentta_on r k x -> ~ puuttuu r k /\ ~ ei_numero r k.
Proof.
  intros (s & Hs & Hx). split.
  - intros [H1|H1]; congruence.
  - intros (s' & Hs' & Hx'). congruence.
Qed.

Lemma vastaa_kentta (r : rivi) (m : mittaus) (k : string) :
  vastaa r m -> k ∈ energiakentat -> exists x, kentta_on r k x.
Proof.
  intros (_ & H1 & H2 & H3 & H4 & H5 & H6) Hk.
  unfold energiakentat, kulutus_kentat, tuotanto_kentat in Hk. simpl in Hk.
  repeat (apply elem_of_cons in Hk as [->|Hk]; [eauto|]).
  by apply elem_of_nil in Hk.
Qed.

(** A row that yields a measurement has none of the defects. *)
Lemma vastaa_not_virheellinen (r : rivi) (m : mittaus) :
  vastaa r m -> ~ virheellinen r.
Proof.
  intros Hv [(k & Hk & Hp)|[(k & Hk & Hn)|(s & Hs & Ht)]].
  - unfold kentat in Hk. apply elem_of_cons in Hk as [->|Hk].
    + destruct Hv as ((s & t & Hs & _) & _). destruct Hp; congruence.
    + destruct (vastaa_kentta r m k Hv Hk) as [x Hx].
      by apply kentta_on_ok in Hx as [? ?].
  - destruct (vastaa_kentta r m k Hv Hk) as [x Hx].
    by apply kentta_on_ok in Hx as [? ?].
  - destruct Hv as ((s' & t & Hs' & Ht' & _) & _). congruence.
Qed.

(** Reading one energy field. *)
Lemma lue_kentta (r : rivi) (k : string) :
  k ∈ energiakentat ->
  (virheellinen r /\ exists e, dict_getitem k r ≫= py_float = Raise e)
  \/ (exists x, kentta_on r k x /\ dict_getitem k r ≫= py_float = Ok x).
Proof.
  intros Hk. unfold dict_getitem, py_float.
  assert (Hk' : k ∈ kentat) by (by right).
  destruct (dict_get k r) as [[s|]|] eqn:Hget; simpl.
  - destruct (float_of_string s) as [x|] eqn:Hs.
    + right. exists x. split; [by exists s | done].
    + left. split; [|by eauto]. right; left. exists k. split; [done|]. by exists s.
  - left. split; [|by eauto]. left. exists k. split; [done|]. by right.
  - left. split; [|by eauto]. left. exists k. split; [done|]. by left.
Qed.

(** The next [float(rivi[k])] of the loop body: it raises, and the goal's left
    branch holds, or it returns [x] with [Hx : kentta_on r k x]. *)
Ltac lue_kentta_askel r k x Hx :=
  let Hv := fresh "Hv" in
  let e := fresh "e" in
  destruct (lue_kentta r k) as [(Hv & e & ->)|(x & Hx & ->)];
  [by apply (bool_decide_unpack _) | by left; eauto |]; simpl.

(** One round of the loop: a defective row raises, any other row appends
    the measurement it describes. *)
Lemma lue_rivi_cases (mittaukset : list mittaus) (r : rivi) :
  (virheellinen r /\ exists e, lue_rivi mittaukset r = Raise e)
  \/ (exists m, vastaa r m /\ lue_rivi mittaukset r = Ok (mittaukset ++ [m])).
Proof.
  unfold lue_rivi.
  assert (Ha : dict_getitem "Aika" r
               = match dict_get "Aika" r with
                 | Some v => Ok v
                 | None => Raise KeyError
                 end) by done.
  rewrite Ha. clear Ha.
  destruct (dict_get "Aika" r) as [[s|]|] eqn:Hget; simpl;
    [| left; split; [|by eauto]; left; exists "Aika"%string;
       split; [by left | by right]
     | left; split; [|by eauto]; left; exists "Aika"%string;
       split; [by left | by left] ].
  destruct (datetime_of_string s) as [t|] eqn:Hs; simpl;
    [| left; split; [|by eauto]; right; right; by exists s ].
  assert (Ht : aika_on r (datetime_date t)) by (by exists s, t).
  lue_kentta_askel r "Kulutus vaihe 1 Wh"%string k1 H1.
  lue_kentta_askel r "Kulutus vaihe 2 Wh"%string k2 H2.
  lue_kentta_askel r "Kulutus vaihe 3 Wh"%string k3 H3.
  lue_kentta_askel r "Tuotanto vaihe 1 Wh"%string t1 H4.
  lue_kentta_askel r "Tuotanto vaihe 2 Wh"%string t2 H5.
  lue_kentta_askel r "Tuotanto vaihe 3 Wh"%string t3 H6.
  right. eexists. split; [|reflexivity]. by repeat split.
Qed.

Lemma lue_data_raises (rivit : list rivi) (mittaukset : list mittaus) :
  Exists virheellinen rivit ->
  exists e, for_each lue_rivi rivit mittaukset = Raise e.
Proof.
  intros Hex. revert mittaukset.
  induction Hex as [r rivit Hr|r rivit _ IH]; intros mittaukset; simpl.
  - destruct (lue_rivi_cases mittaukset r) as [(_ & e & ->)|(m & Hm & _)].
    + by exists e.
    + by apply vastaa_not_virheellinen in Hm.
  - destruct (lue_rivi_cases mittaukset r) as [(_ & e & ->)|(m & _ & ->)].
    + by exists e.
    + apply IH.
Qed.

Lemma lue_data_reads (rivit : list rivi) (mittaukset : list mittaus) :
  Forall (fun r => ~ virheellinen r) rivit ->
  exists ms, for_each lue_rivi rivit mittaukset = Ok (mittaukset ++ ms)
             /\ Forall2 vastaa rivit ms.
Proof.
  intros Hall. revert mittaukset.
  induction Hall as [|r rivit Hr _ IH]; intros mittaukset; simpl.
  - exists []. by rewrite app_nil_r.
  - destruct (lue_rivi_cases mittaukset r) as [(Hv & _)|(m & Hm & ->)]; [done|].
    simpl. destruct (IH (mittaukset ++ [m])) as (ms & -> & Hms).
    exists (m :: ms). split; [by rewrite <- app_assoc | by constructor].
Qed.

(** C3. When some row lacks a required field, holds an energy field that
    is not a number or holds a malformed time stamp, the loader raises an
    exception and returns no measurements; the exception ends the run
    before anything is printed. *)
Theorem lue_data_fails (rivit : list rivi) :
  Exists virheellinen rivit ->
  exists e,
    lue_data rivit = Raise e
    /\ main rivit = ([], Raise e).
Proof.
  intros Hex. destruct (lue_data_raises rivit [] Hex) as [e He].
  exists e. unfold main, lue_data. by rewrite He.
Qed.

(** C4. When no row is defective the loader returns one measurement per
    row, in the order of the rows: the day is the date of the parsed time
    stamp, and the six values are the parsed energy fields. *)
Theorem lue_data_one_per_row (rivit : list rivi) :
  Forall (fun r => ~ virheellinen r) rivit ->
  exists ms,
    lue_data rivit = Ok ms
    /\ length ms = length rivit
    /\ Forall2 vastaa rivit ms.
Proof.
  intros Hall. destruct (lue_data_reads rivit [] Hall) as (ms & Hms & Hv).
  exists ms. split_and!; [done| |done]. symmetry. by eapply Forall2_length.
Qed.

End LoaderFacts.

(** *** Examples with the reference parsers *)

Lemma lue_data_fails_witness :
  Exists (virheellinen Parse.float_of_string Parse.datetime_of_string)
         [rivi_500; rivi_abc; rivi_1500]
  /\ exists e,
       lue_data Parse.float_of_string Parse.datetime_of_string
         [rivi_500; rivi_abc; rivi_1500] = Raise e
       /\ main Parse.float_of_string Parse.datetime_of_string
            [rivi_500; rivi_abc; rivi_1500] = ([], Raise e).
Proof.
  assert (Hex : Exists (virheellinen Parse.float_of_string Parse.datetime_of_string)
                       [rivi_500; rivi_abc; rivi_1500]).
  { apply Exists_cons_tl, Exists_cons_hd. right; left.
    exists "Kulutus vaihe 2 Wh"%string. split.
    - apply (bool_decide_unpack _). reflexivity.
    - exists "abc"%string. split; reflexivity. }
  split; [exact Hex|].
  exact (lue_data_fails Parse.float_of_string Parse.datetime_of_string
           [rivi_500; rivi_abc; rivi_1500] Hex).
Defined.

Example lue_data_exceptions :
  lue_data Parse.float_of_string Parse.datetime_of_string [rivi_500; rivi_abc]
  = Raise ValueError
  /\ lue_data Parse.float_of_string Parse.datetime_of_string [rivi_lyhyt; rivi_500]
     = Raise TypeError
  /\ lue_data Parse.float_of_string Parse.datetime_of_string [rivi_pvm]
     = Raise ValueError
  /\ lue_data Parse.float_of_string Parse.datetime_of_string
       [[("Aika"%string, Some "2024-10-14"%string)]]
     = Raise KeyError.
Proof. by vm_compute. Qed.

Lemma rivi_500_vastaa :
  vastaa Parse.float_of_string Parse.datetime_of_string rivi_500
    (rivi_v1 ma_14_10 (Float.of_Z 500)).
Proof.
  split.
  - exists "2024-10-14T00:00:00"%string, (DateTime ma_14_10 0 0 0 0).
    split_and!; vm_compute; reflexivity.
  - split_and!;
      [exists "500"%string | exists "0"%string ..]; split; vm_compute; reflexivity.
Qed.

Lemma rivi_1500_vastaa :
  vastaa Parse.float_of_string Parse.datetime_of_string rivi_1500
    (rivi_v1 ma_14_10 (Float.of_Z 1500)).
Proof.
  split.
  - exists "2024-10-14T01:00:00"%string, (DateTime ma_14_10 1 0 0 0).
    split_and!; vm_compute; reflexivity.
  - split_and!;
      [exists "1500"%string | exists "0"%string ..]; split; vm_compute; reflexivity.
Qed.

Lemma lue_data_one_per_row_witness :
  exists ms,
    lue_data Parse.float_of_string Parse.datetime_of_string [rivi_500; rivi_1500]
    = Ok ms
    /\ length ms = length [rivi_500; rivi_1500]
    /\ Forall2 (vastaa Parse.float_of_string Parse.datetime_of_string)
               [rivi_500; rivi_1500] ms.
Proof.
  apply (lue_data_one_per_row Parse.float_of_string Parse.datetime_of_string).
  repeat constructor.
  - exact (vastaa_not_virheellinen _ _ _ _ rivi_500_vastaa).
  - exact (vastaa_not_virheellinen _ _ _ _ rivi_1500_vastaa).
Defined.

(** Two rows of 14 October 2024 with 500 Wh and 1500 Wh on consumption
    phase 1 are reported as 2,00 kWh. *)
Example main_500_1500 :
  lue_data Parse.float_of_string Parse.datetime_of_string [rivi_500; rivi_1500]
  = Ok [rivi_v1 ma_14_10 (Float.of_Z 500); rivi_v1 ma_14_10 (Float.of_Z 1500)]
  /\ main Parse.float_of_string Parse.datetime_of_string [rivi_500; rivi_1500]
     = (otsikko ++
        ["maanantai    14.10.2024      2,00    0,00    0,00    0,00    0,00    0,00"%string],
        Ok tt).
Proof. by vm_compute. Qed.

(** * Further properties *)

(** ** The aggregator *)

Lemma add_zero_l (x : float) : Float.add Float.zero x = nollasta x.
Proof. by destruct x as [[]|[]| |]. Qed.

(** X1. One measurement gives one entry, that of its day, with its six
    values divided by 1000.0; a negative zero among them counts as zero. *)
Theorem laske_paivasummat_single (m : mittaus) :
  laske_paivasummat [m]
  = Ok [(paiva m,
         {| kulutus_kwh := (fun x => kwh (nollasta x)) <$> tuple3_to_list (kulutus m);
            tuotanto_kwh := (fun x => kwh (nollasta x)) <$> tuple3_to_list (tuotanto m) |})].
Proof.
  unfold laske_paivasummat. simpl for_each.
  rewrite lisaa_mittaus_ok by (intros d v Hd; discriminate Hd).
  destruct m as [p [[k1 k2] k3] [[t1 t2] t3]]. unfold kwh.
  cbn -[Float.add Float.div]. by rewrite !add_zero_l.
Qed.

Lemma ensimmaiset_snoc {A : Type} `{EqDecision A} (xs : list A) (x : A) :
  ensimmaiset (xs ++ [x])
  = if decide (x ∈ ensimmaiset xs) then ensimmaiset xs else ensimmaiset xs ++ [x].
Proof. unfold ensimmaiset. by rewrite fold_left_app. Qed.

Lemma dict_contains_keys {K V : Type} `{EqDecision K} (k : K) (d : dict K V) :
  dict_contains k d = true <-> k ∈ dict_keys d.
Proof.
  unfold dict_contains. destruct (dict_get k d) as [v|] eqn:E.
  - split; [intros _; by eapply dict_get_Some_keys | done].
  - split; [done|]. intros Hin. by apply dict_get_None in E.
Qed.

(** The first loop inserts the days in the order in which they first occur. *)
Lemma lisaa_mittaus_keys (ms pre : list mittaus) (acc : dict date summat_wh) :
  summat_ok acc pre ->
  dict_keys acc = ensimmaiset (paivat pre) ->
  exists acc',
    for_each lisaa_mittaus ms acc = Ok acc'
    /\ summat_ok acc' (pre ++ ms)
    /\ dict_keys acc' = ensimmaiset (paivat (pre ++ ms)).
Proof.
  revert pre acc. induction ms as [|m ms IH]; intros pre acc Hok Hkeys.
  - exists acc. by rewrite app_nil_r.
  - destruct (summat_ok_step acc pre m Hok) as (acc1 & Hstep & Hok1).
    assert (Hkeys1 : dict_keys acc1 = ensimmaiset (paivat (pre ++ [m]))).
    { rewrite lisaa_mittaus_ok in Hstep.
      - injection Hstep as <-. rewrite dict_keys_set.
        unfold paivat. rewrite fmap_app. simpl. rewrite ensimmaiset_snoc.
        fold (paivat pre). rewrite <- Hkeys.
        destruct (dict_contains (paiva m) acc) eqn:E.
        + rewrite decide_True; [done|]. by apply dict_contains_keys.
        + rewrite decide_False; [done|]. intros Hin.
          apply dict_contains_keys in Hin. congruence.
      - destruct Hok as [_ Hget]. intros d v Hd. rewrite Hget in Hd.
        case_decide; simplify_eq. apply kolme_paivan_summat_wh. }
    simpl. rewrite Hstep. simpl.
    destruct (IH _ _ Hok1 Hkeys1) as (acc' & Hloop & Hok' & Hkeys').
    exists acc'. by rewrite <- !app_assoc in *.
Qed.

Lemma dict_by_keys {K V : Type} `{EqDecision K} (f : K -> V) (d : dict K V) :
  (forall k v, (k, v) ∈ d -> v = f k) ->
  d = (fun k => (k, f k)) <$> dict_keys d.
Proof.
  unfold dict_keys. induction d as [|[k v] d IH]; intros Hf; [done|].
  simpl. rewrite (Hf k v) by left. f_equal. apply IH.
  intros k' v' Hin. apply Hf. by right.
Qed.

(** X2. The aggregator in one equation: the mapping lists the days of the
    input in the order in which they first occur, each with its totals. *)
Theorem laske_paivasummat_first_seen (ms : list mittaus) :
  laske_paivasummat ms
  = Ok ((fun d => (d, paivan_summat d ms)) <$> ensimmaiset (paivat ms)).
Proof.
  destruct (lisaa_mittaus_keys ms [] [] summat_ok_nil eq_refl)
    as (acc & Hloop & [Hnd Hget] & Hkeys).
  simpl in Hkeys, Hget.
  unfold laske_paivasummat. rewrite Hloop. simpl.
  rewrite muunna_kwh_loop by done. simpl. f_equal.
  rewrite (dict_by_keys (fun d => paivan_summat_wh d ms) acc).
  - rewrite Hkeys, <- !list_fmap_compose. by apply list_fmap_ext.
  - intros d v Hin. apply dict_elem_of_get in Hin; [|done].
    rewrite Hget in Hin. case_decide; by simplify_eq.
Qed.

Lemma paivan_rivit_idemp (d : date) (ms : list mittaus) :
  paivan_rivit d (paivan_rivit d ms) = paivan_rivit d ms.
Proof.
  unfold paivan_rivit. induction ms as [|m ms IH]; [done|].
  rewrite filter_cons. case_decide; [|done].
  rewrite filter_cons, decide_True by done. by rewrite IH.
Qed.

Lemma paivan_rivit_elem_of (d : date) (ms : list mittaus) :
  d ∈ paivat ms <-> d ∈ paivat (paivan_rivit d ms).
Proof.
  unfold paivat, paivan_rivit. rewrite !list_elem_of_fmap. split.
  - intros (m & -> & Hm). exists m. split; [done|]. by apply list_elem_of_filter.
  - intros (m & -> & Hm). exists m. split; [done|].
    by apply list_elem_of_filter in Hm as [_ ?].
Qed.

(** X3. The totals of a day depend on the rows of that day only: the rows of
    the day aggregated alone give the same entry. *)
Theorem laske_paivasummat_day_alone (ms : list mittaus) (d : date) :
  exists D D1,
    laske_paivasummat ms = Ok D
    /\ laske_paivasummat (paivan_rivit d ms) = Ok D1
    /\ dict_get d D = dict_get d D1
    /\ forall d', d' <> d -> dict_get d' D1 = None.
Proof.
  destruct (laske_paivasummat_lookup ms) as (D & HD & _ & Hget).
  destruct (laske_paivasummat_lookup (paivan_rivit d ms)) as (D1 & HD1 & _ & Hget1).
  exists D, D1. split_and!; [done|done| |].
  - rewrite Hget, Hget1. unfold paivan_summat, paivan_summat_wh.
    rewrite paivan_rivit_idemp.
    destruct (decide (d ∈ paivat ms)) as [Hd|Hd].
    + rewrite decide_True; [done|]. by apply (proj1 (paivan_rivit_elem_of d ms)).
    + rewrite decide_False; [done|]. intros Hin. apply Hd.
      by apply (proj2 (paivan_rivit_elem_of d ms)).
  - intros d' Hne. rewrite Hget1. rewrite decide_False; [done|].
    unfold paivat, paivan_rivit. intros (m & -> & Hm)%list_elem_of_fmap.
    by apply list_elem_of_filter in Hm as [? _].
Qed.

Lemma add_nan_r (x : float) : Float.add x S754_nan = S754_nan.
Proof. by destruct x. Qed.

Lemma fold_add_nan (xs : list float) : fold_left Float.add xs S754_nan = S754_nan.
Proof. induction xs as [|x xs IH]; [done|]. exact IH. Qed.

Lemma summa_nan (xs : list float) : S754_nan ∈ xs -> summa xs = S754_nan.
Proof.
  intros (l1 & l2 & ->)%list_elem_of_split. unfold summa.
  rewrite fold_left_app. simpl. by rewrite add_nan_r, fold_add_nan.
Qed.

Lemma vaihesummat_nan (ts : list (tuple3 float)) (t : tuple3 float) (i : nat) :
  t ∈ ts ->
  tuple3_to_list t !! i = Some S754_nan ->
  (kwh <$> vaihesummat ts) !! i = Some S754_nan.
Proof.
  intros Hin Hi. destruct t as [[a b] c].
  destruct i as [|[|[|i]]]; simpl in Hi; simplify_eq; simpl.
  - rewrite summa_nan; [done|]. apply list_elem_of_fmap. by exists (S754_nan, b, c).
  - rewrite summa_nan; [done|]. apply list_elem_of_fmap. by exists (a, S754_nan, c).
  - rewrite summa_nan; [done|]. apply list_elem_of_fmap. by exists (a, b, S754_nan).
Qed.

(** X4. A reading that is not a number is not dropped: it makes the total of
    its phase, on its day, not a number. *)
Theorem laske_paivasummat_nan (ms : list mittaus) (m : mittaus) (i : nat) :
  m ∈ ms ->
  exists D v,
    laske_paivasummat ms = Ok D
    /\ dict_get (paiva m) D = Some v
    /\ (tuple3_to_list (kulutus m) !! i = Some S754_nan ->
        kulutus_kwh v !! i = Some S754_nan)
    /\ (tuple3_to_list (tuotanto m) !! i = Some S754_nan ->
        tuotanto_kwh v !! i = Some S754_nan).
Proof.
  intros Hm. destruct (laske_paivasummat_lookup ms) as (D & HD & _ & Hget).
  exists D, (paivan_summat (paiva m) ms).
  assert (Hrow : m ∈ paivan_rivit (paiva m) ms) by (by apply list_elem_of_filter).
  split_and!; [done| | |].
  - rewrite Hget, decide_True; [done|]. apply list_elem_of_fmap. by exists m.
  - apply vaihesummat_nan. apply list_elem_of_fmap. by exists m.
  - apply vaihesummat_nan. apply list_elem_of_fmap. by exists m.
Qed.

Lemma laske_paivasummat_nan_witness :
  exists D v,
    laske_paivasummat nan_rivit = Ok D
    /\ dict_get ma_14_10 D = Some v
    /\ kulutus_kwh v !! 0%nat = Some S754_nan
    /\ muotoile_kwh <$> kulutus_kwh v = ["nan"; "0,00"; "0,00"]%string.
Proof.
  destruct (laske_paivasummat_nan nan_rivit (rivi_v1 ma_14_10 S754_nan) 0)
    as (D & v & HD & Hv & Hk & _).
  { unfold nan_rivit. right. left. }
  exists D, v. split_and!; [done | done | by apply Hk |].
  vm_compute in HD. simplify_eq. vm_compute in Hv. by simplify_eq.
Defined.

(** *** Whole watt-hours *)

Lemma paivan_rivit_of_wh (d : date) (zs : list wh_rivi) :
  paivan_rivit d (mittaus_of_wh <$> zs) = mittaus_of_wh <$> wh_paivan_rivit d zs.
Proof.
  unfold paivan_rivit, wh_paivan_rivit.
  induction zs as [|[[p [[k1 k2] k3]] [[t1 t2] t3]] zs IH]; [done|].
  rewrite fmap_cons, !filter_cons, IH. simpl. by case_decide.
Qed.

Lemma Zsumma_filter_le (d : date) (zs : list wh_rivi) :
  Zsumma (itseisarvot <$> wh_paivan_rivit d zs) <= Zsumma (itseisarvot <$> zs).
Proof.
  unfold wh_paivan_rivit. induction zs as [|r zs IH]; [done|].
  rewrite filter_cons. pose proof (itseisarvot_nonneg r).
  case_decide; rewrite ?Zsumma_fmap_cons.
  - apply Z.add_le_mono_l, IH.
  - etrans; [apply IH|lia].
Qed.

(** The three sums of a kind, for whole watt-hours that need no rounding,
    are the exact sums. *)
Lemma vaihesummat_of_wh (zs : list wh_rivi) :
  Zsumma (itseisarvot <$> zs) < 2 ^ 53 ->
  vaihesummat (kulutus <$> (mittaus_of_wh <$> zs)) = Float.of_Z <$> wh_kulutus zs
  /\ vaihesummat (tuotanto <$> (mittaus_of_wh <$> zs)) = Float.of_Z <$> wh_tuotanto zs.
Proof.
  intros Hzs.
  assert (Hsum : forall (sel : tuple3 float -> float) (g : mittaus -> tuple3 float)
                        (f : wh_rivi -> Z),
             (forall r, sel (g (mittaus_of_wh r)) = Float.of_Z (f r)) ->
             (forall r, Z.abs (f r) <= itseisarvot r) ->
             summa (sel <$> (g <$> (mittaus_of_wh <$> zs)))
             = Float.of_Z (Zsumma (f <$> zs))).
  { intros sel g f Hsel Hf. rewrite <- (summa_of_Z f) by done. f_equal.
    rewrite <- !list_fmap_compose. apply list_fmap_ext. intros ? r _. apply Hsel. }
  unfold vaihesummat, wh_kulutus, wh_tuotanto. simpl.
  split; (f_equal; [|f_equal; [|f_equal]]);
    apply Hsum; intros [[? [[? ?] ?]] [[? ?] ?]]; simpl; (done || lia).
Qed.

(** X5. For whole watt-hours whose magnitudes add up to less than 2^53 the
    totals of a day are exact: each is the integer sum of the phase over the
    rows of the day, converted to a float and divided by 1000.0. *)
Theorem laske_paivasummat_whole (zs : list wh_rivi) (d : date) :
  Zsumma (itseisarvot <$> zs) < 2 ^ 53 ->
  d ∈ (fun r : wh_rivi => r.1.1) <$> zs ->
  exists D,
    laske_paivasummat (mittaus_of_wh <$> zs) = Ok D
    /\ dict_get d D
       = Some {| kulutus_kwh :=
                   (fun n => kwh (Float.of_Z n)) <$> wh_kulutus (wh_paivan_rivit d zs);
                 tuotanto_kwh :=
                   (fun n => kwh (Float.of_Z n)) <$> wh_tuotanto (wh_paivan_rivit d zs) |}.
Proof.
  intros Hzs Hd.
  destruct (laske_paivasummat_lookup (mittaus_of_wh <$> zs)) as (D & HD & _ & Hget).
  exists D. split; [done|]. rewrite Hget, decide_True.
  - unfold paivan_summat, paivan_summat_wh, muunnettu.
    rewrite paivan_rivit_of_wh.
    destruct (vaihesummat_of_wh (wh_paivan_rivit d zs)) as [-> ->].
    { pose proof (Zsumma_filter_le d zs). lia. }
    cbn [kulutus_wh tuotanto_wh]. by rewrite <- !list_fmap_compose.
  - unfold paivat. rewrite <- list_fmap_compose.
    apply list_elem_of_fmap in Hd as (r & -> & Hr).
    apply list_elem_of_fmap. exists r. split; [|done].
    by destruct r as [[p [[k1 k2] k3]] [[t1 t2] t3]].
Qed.

Lemma laske_paivasummat_whole_witness :
  exists D,
    laske_paivasummat (mittaus_of_wh <$> wh_esimerkki) = Ok D
    /\ dict_get ma_14_10 D
       = Some {| kulutus_kwh := (fun n => kwh (Float.of_Z n)) <$> [2000; 21; 0];
                 tuotanto_kwh := (fun n => kwh (Float.of_Z n)) <$> [0; 7; 0] |}.
Proof.
  apply (laske_paivasummat_whole wh_esimerkki ma_14_10).
  - reflexivity.
  - apply (bool_decide_unpack _). reflexivity.
Defined.

(** ** The loader *)

Section LoaderMore.

Variable float_of_string : string -> option float.
Variable datetime_of_string : string -> option datetime.

Local Abbreviation py_float := (py_float float_of_string).
Local Abbreviation fromisoformat := (fromisoformat datetime_of_string).
Local Abbreviation lue_rivi := (lue_rivi float_of_string datetime_of_string).
Local Abbreviation lue_data := (lue_data float_of_string datetime_of_string).
Local Abbreviation main := (main float_of_string datetime_of_string).
Local Abbreviation virheellinen := (virheellinen float_of_string datetime_of_string).
Local Abbreviation vastaa := (vastaa float_of_string datetime_of_string).
Local Abbreviation rivin_virhe := (rivin_virhe float_of_string datetime_of_string).

(** What a row appends does not depend on the rows before it. *)
Lemma lue_rivi_acc (mittaukset : list mittaus) (r : rivi) :
  lue_rivi mittaukset r = ms ← lue_rivi [] r; Ok (mittaukset ++ ms).
Proof.
  unfold lue_rivi.
  destruct (dict_getitem "Aika" r) as [a|]; simpl; [|reflexivity].
  destruct (fromisoformat a) as [t|]; simpl; [|reflexivity].
  destruct (dict_getitem "Kulutus vaihe 1 Wh" r ≫= py_float); simpl; [|reflexivity].
  destruct (dict_getitem "Kulutus vaihe 2 Wh" r ≫= py_float); simpl; [|reflexivity].
  destruct (dict_getitem "Kulutus vaihe 3 Wh" r ≫= py_float); simpl; [|reflexivity].
  destruct (dict_getitem "Tuotanto vaihe 1 Wh" r ≫= py_float); simpl; [|reflexivity].
  destruct (dict_getitem "Tuotanto vaihe 2 Wh" r ≫= py_float); simpl; [|reflexivity].
  destruct (dict_getitem "Tuotanto vaihe 3 Wh" r ≫= py_float); simpl; reflexivity.
Qed.

Lemma lue_silmukka_acc (rivit : list rivi) (mittaukset : list mittaus) :
  for_each lue_rivi rivit mittaukset
  = ms ← for_each lue_rivi rivit []; Ok (mittaukset ++ ms).
Proof.
  revert mittaukset. induction rivit as [|r rivit IH]; intros mittaukset; simpl.
  - by rewrite app_nil_r.
  - rewrite (lue_rivi_acc mittaukset r).
    destruct (lue_rivi [] r) as [ms1|e]; simpl; [|done].
    rewrite (IH (mittaukset ++ ms1)), (IH ms1).
    destruct (for_each lue_rivi rivit []) as [ms2|e]; simpl; [|done].
    by rewrite app_assoc.
Qed.

Lemma for_each_app {A S : Type} (body : S -> A -> result S) (xs ys : list A) (s : S) :
  for_each body (xs ++ ys) s = s' ← for_each body xs s; for_each body ys s'.
Proof.
  revert s. induction xs as [|x xs IH]; intros s; simpl; [done|].
  destruct (body s x); simpl; [apply IH | done].
Qed.

(** X6. Reading a file in two parts: the measurements of the first rows
    followed by those of the rest, and the exception of the first part, or
    else of the second, when one is raised. *)
Theorem lue_data_app (rivit1 rivit2 : list rivi) :
  lue_data (rivit1 ++ rivit2)
  = ms1 ← lue_data rivit1; ms2 ← lue_data rivit2; Ok (ms1 ++ ms2).
Proof.
  unfold lue_data. rewrite for_each_app.
  destruct (for_each lue_rivi rivit1 []) as [ms1|e]; simpl; [|done].
  apply lue_silmukka_acc.
Qed.

(** Reading the energy field [k]: the goal is settled when the cell raises,
    and goes on with the parsed value otherwise. *)
Ltac kentta r k :=
  let s := fresh "s" in
  let x := fresh "x" in
  let Hk := fresh "Hk" in
  let Hx := fresh "Hx" in
  destruct (dict_get k r) as [[s|]|] eqn:Hk; simpl; try done;
  destruct (float_of_string s) as [x|] eqn:Hx; simpl; try done.

(** A row raises its first exception, and yields a measurement when it has
    none. *)
Lemma lue_rivi_virhe (mittaukset : list mittaus) (r : rivi) :
  match rivin_virhe r with
  | Some e => lue_rivi mittaukset r = Raise e
  | None => exists m, vastaa r m /\ lue_rivi mittaukset r = Ok (mittaukset ++ [m])
  end.
Proof.
  unfold lue_rivi, rivin_virhe, dict_getitem, py_float, fromisoformat.
  unfold energiakentat, kulutus_kentat, tuotanto_kentat. simpl.
  destruct (dict_get "Aika" r) as [[s|]|] eqn:Ha; simpl; try done.
  destruct (datetime_of_string s) as [t|] eqn:Ht; simpl; try done.
  kentta r "Kulutus vaihe 1 Wh"%string.
  kentta r "Kulutus vaihe 2 Wh"%string.
  kentta r "Kulutus vaihe 3 Wh"%string.
  kentta r "Tuotanto vaihe 1 Wh"%string.
  kentta r "Tuotanto vaihe 2 Wh"%string.
  kentta r "Tuotanto vaihe 3 Wh"%string.
  eexists. split; [|reflexivity].
  split; [by exists s, t|]. split_and!; eexists; split; eassumption.
Qed.

Lemma rivin_virhe_exn (r : rivi) (e : exn) :
  rivin_virhe r = Some e -> e = KeyError \/ e = TypeError \/ e = ValueError.
Proof.
  unfold rivin_virhe, energiakentat, kulutus_kentat, tuotanto_kentat, solun_virhe.
  simpl.
  repeat match goal with
         | |- context [dict_get ?k r] => destruct (dict_get k r) as [[?|]|]
         | |- context [datetime_of_string ?s] => destruct (datetime_of_string s)
         | |- context [float_of_string ?s] => destruct (float_of_string s)
         end; simpl; intros; simplify_eq; auto.
Qed.

(** X7. The loader raises the exception of the first field, in reading
    order, of the first row that has one: [KeyError] for a field the header
    lacks, [TypeError] for a cell the row is too short for, [ValueError] for
    text the parser refuses.  The rows after it are not looked at. *)
Theorem lue_data_first_error (alku : list rivi) (r : rivi) (loput : list rivi) (e : exn) :
  Forall (fun r => rivin_virhe r = None) alku ->
  rivin_virhe r = Some e ->
  lue_data (alku ++ r :: loput) = Raise e
  /\ (e = KeyError \/ e = TypeError \/ e = ValueError).
Proof.
  intros Halku Hr. split; [|by eapply rivin_virhe_exn].
  unfold lue_data. generalize (@nil mittaus).
  induction Halku as [|r0 alku Hr0 _ IH]; intros acc; simpl.
  - pose proof (lue_rivi_virhe acc r) as H. rewrite Hr in H. by rewrite H.
  - pose proof (lue_rivi_virhe acc r0) as H. rewrite Hr0 in H.
    destruct H as (m & _ & ->). simpl. apply IH.
Qed.

(** X8. Only the seven fields count: rows that agree on them, whatever else
    they hold and in whatever order, are read alike. *)
Theorem lue_data_other_columns (rivit rivit' : list rivi) :
  Forall2 samat_kentat rivit rivit' ->
  lue_data rivit = lue_data rivit'.
Proof.
  intros Hall. unfold lue_data. generalize (@nil mittaus).
  induction Hall as [|r r' rivit rivit' Hr _ IH]; intros acc; simpl; [done|].
  assert (Hrivi : lue_rivi acc r = lue_rivi acc r').
  { unfold lue_rivi, dict_getitem.
    rewrite !(Hr _) by (apply (bool_decide_unpack _); reflexivity). done. }
  rewrite Hrivi. destruct (lue_rivi acc r'); simpl; [apply IH | done].
Qed.

End LoaderMore.

Lemma lue_data_first_error_witness :
  lue_data Parse.float_of_string Parse.datetime_of_string
    ([rivi_500; rivi_1500] ++ rivi_lyhyt :: [rivi_abc])
  = Raise TypeError
  /\ (TypeError = KeyError \/ TypeError = TypeError \/ TypeError = ValueError).
Proof.
  apply (lue_data_first_error Parse.float_of_string Parse.datetime_of_string
           [rivi_500; rivi_1500] rivi_lyhyt [rivi_abc] TypeError).
  - repeat constructor; vm_compute; reflexivity.
  - vm_compute. reflexivity.
Defined.

Lemma lue_data_other_columns_witness :
  lue_data Parse.float_of_string Parse.datetime_of_string [rivi_500; rivi_500_lisaa]
  = lue_data Parse.float_of_string Parse.datetime_of_string [rivi_500; rivi_500].
Proof.
  apply (lue_data_other_columns Parse.float_of_string Parse.datetime_of_string).
  repeat constructor; intros k Hk; unfold kentat, energiakentat in Hk; simpl in Hk;
    repeat (apply elem_of_cons in Hk as [->|Hk]; [reflexivity|]);
    by apply elem_of_nil in Hk.
Defined.

(** ** The formatters *)

Lemma str_replace_gone (old new : ascii) (s : string) :
  old <> new -> old ∉ list_ascii_of_string (str_replace old new s).
Proof.
  intros Hne. induction s as [|c s IH]; simpl; [apply not_elem_of_nil|].
  apply not_elem_of_cons. split; [|done].
  destruct (Ascii.eqb_spec c old) as [->|Hc]; congruence.
Qed.

(** X9. No value is rendered with a full stop, be it finite, infinite or
    not a number. *)
Theorem muotoile_kwh_no_dot (x : float) :
  "."%char ∉ list_ascii_of_string (muotoile_kwh x).
Proof. unfold muotoile_kwh. by apply str_replace_gone. Qed.

Lemma div_half_even_near (a d : Z) :
  0 <= a -> 0 < d -> 2 * Z.abs (div_half_even a d * d - a) <= d.
Proof.
  intros Ha Hd. unfold div_half_even.
  pose proof (Z.div_mod a d ltac:(lia)) as Hdiv.
  pose proof (Z.mod_pos_bound a d Hd) as Hmod.
  destruct (Z.compare_spec (2 * (a mod d)) d) as [Heq|Hlt|Hgt];
    [destruct (Z.even (a / d))| |]; nia.
Qed.

(** X10. The digits shown for a finite value are those of its nearest
    number of hundredths [n]: before the comma [n / 100], after it the two
    digits of [n mod 100], and [n] is within one half of a hundred times the
    magnitude [m * 2^e]. *)
Theorem muotoile_kwh_nearest (s : bool) (m : positive) (e : Z) :
  exists n : Z,
    0 <= n
    /\ muotoile_kwh (S754_finite s m e)
       = etumerkki s +:+ str_of_Z (n / 100) +:+ "," +:+ kaksi_numeroa (n mod 100)
    /\ (0 <= e -> n = 100 * (Z.pos m * 2 ^ e))
    /\ (e < 0 -> 2 * Z.abs (n * 2 ^ (- e) - 100 * Z.pos m) <= 2 ^ (- e)).
Proof.
  exists (sadasosat m e). split_and!.
  - apply sadasosat_nonneg.
  - pose proof (sadasosat_nonneg m e) as Hn.
    unfold muotoile_kwh, format_2f. rewrite !str_replace_app.
    destruct (kaksi_numeroa_digits (sadasosat m e mod 100)) as (k1 & k2 & Hk & H1 & H2).
    { apply Z.mod_pos_bound. lia. }
    destruct (str_of_Z_numeroita (sadasosat m e / 100)) as [Hd _].
    { apply Z.div_pos; lia. }
    rewrite (str_replace_numeroita (str_of_Z _)) by done.
    rewrite (str_replace_numeroita (kaksi_numeroa _)).
    + by destruct s.
    + rewrite Hk. unfold numeroita. simpl. by rewrite H1, H2.
  - intros He. unfold sadasosat. destruct (Z.leb_spec 0 e); lia.
  - intros He. unfold sadasosat. destruct (Z.leb_spec 0 e); [lia|].
    replace (100 * Z.pos m) with (Z.pos m * 100) by lia.
    apply div_half_even_near; [lia|]. apply Z.pow_pos_nonneg; lia.
Qed.

(** X11. A negative value of less than half a hundredth keeps its sign: it
    is rendered as minus zero. *)
Theorem muotoile_kwh_small_negative (m : positive) (e : Z) :
  e < 0 ->
  200 * Z.pos m < 2 ^ (- e) ->
  muotoile_kwh (S754_finite true m e) = "-0,00".
Proof.
  intros He Hm. unfold muotoile_kwh, format_2f, sadasosat.
  destruct (Z.leb_spec 0 e); [lia|].
  assert (Hn : div_half_even (Z.pos m * 100) (2 ^ (- e)) = 0).
  { unfold div_half_even.
    rewrite Z.mod_small, Z.div_small by lia.
    destruct (Z.compare_spec (2 * (Z.pos m * 100)) (2 ^ (- e))); lia. }
  by rewrite Hn.
Qed.

Lemma muotoile_kwh_small_negative_witness :
  muotoile_kwh (S754_finite true 1 (-10)) = "-0,00".
Proof. apply muotoile_kwh_small_negative; reflexivity. Defined.

Lemma nimet_NoDup : NoDup nimet.
Proof. apply (bool_decide_unpack _). reflexivity. Qed.

(** X12. The name tells the weekday: two dates are given the same name only
    when they fall on the same day of the week. *)
Theorem viikonpaivan_nimi_inj (p q : date) :
  viikonpaivan_nimi p = viikonpaivan_nimi q -> weekday p = weekday q.
Proof.
  unfold viikonpaivan_nimi. intros Heq.
  destruct (list_getitem_nimet (weekday p) (weekday_range p)) as (n1 & H1 & L1).
  destruct (list_getitem_nimet (weekday q) (weekday_range q)) as (n2 & H2 & L2).
  rewrite H1, H2 in Heq. injection Heq as <-.
  pose proof (NoDup_lookup _ _ _ _ nimet_NoDup L1 L2) as Hi.
  pose proof (weekday_range p). pose proof (weekday_range q). lia.
Qed.

Lemma viikonpaivan_nimi_inj_witness :
  weekday (Date 2024 10 14) = weekday (Date 2024 10 21).
Proof. apply viikonpaivan_nimi_inj. reflexivity. Defined.

Lemma str_of_Z_inj (a b : Z) : str_of_Z a = str_of_Z b -> a = b.
Proof.
  unfold str_of_Z. intros Heq. apply DecimalZ.to_int_inj.
  assert (Hnil : forall n, Z.to_int n <> Decimal.Pos Decimal.Nil
                           /\ Z.to_int n <> Decimal.Neg Decimal.Nil).
  { intros [|p|p]; simpl; split; try discriminate;
      intros [= H]; by apply DecimalPos.Unsigned.to_uint_nonnil in H. }
  destruct (Hnil a) as [Ha1 Ha2]. destruct (Hnil b) as [Hb1 Hb2].
  pose proof (NilZero.isi (Z.to_int a) Ha1 Ha2) as Ia.
  pose proof (NilZero.isi (Z.to_int b) Hb1 Hb2) as Ib.
  rewrite Heq in Ia. congruence.
Qed.

(** Two texts that begin with digits and a full stop agree on the digits and
    on what follows the full stop. *)
Lemma numeroita_dot_inj (s s' t t' : string) :
  numeroita s -> numeroita s' ->
  s +:+ "." +:+ t = s' +:+ "." +:+ t' ->
  s = s' /\ t = t'.
Proof.
  unfold numeroita. revert s'.
  induction s as [|c s IH]; intros [|c' s']; simpl; intros Hs Hs' Heq.
  - by simplify_eq.
  - by simplify_eq.
  - by simplify_eq.
  - apply andb_true_iff in Hs as [_ Hs]. apply andb_true_iff in Hs' as [_ Hs'].
    injection Heq as -> Heq. destruct (IH s' Hs Hs' Heq) as [-> ->]. done.
Qed.

(** X13. The date column identifies the day: two dates that the calendar
    accepts are written alike only when they are the same date.  Days and
    months are written without a leading zero. *)
Theorem muotoile_pvm_inj (p q : date) :
  valid_date p = true ->
  valid_date q = true ->
  muotoile_pvm p = muotoile_pvm q ->
  p = q.
Proof.
  unfold valid_date. rewrite !andb_true_iff, !Z.leb_le.
  intros Hp Hq Heq. destruct p as [y m d], q as [y' m' d']. simpl in *.
  unfold muotoile_pvm in Heq. simpl in Heq.
  apply numeroita_dot_inj in Heq as [Hd Heq];
    [|apply str_of_Z_numeroita; lia..].
  apply numeroita_dot_inj in Heq as [Hm Hy];
    [|apply str_of_Z_numeroita; lia..].
  apply str_of_Z_inj in Hd, Hm, Hy. by subst.
Qed.

Lemma muotoile_pvm_inj_witness :
  muotoile_pvm (Date 2024 3 7) = "7.3.2024"
  /\ Date 2024 3 7 = Date 2024 3 7.
Proof.
  split; [reflexivity|].
  apply muotoile_pvm_inj; reflexivity.
Defined.

(** ** The reporter *)

Lemma unpack3_kolme {A : Type} (t : list A) :
  (length t = 3%nat /\ exists abc, unpack3 t = Ok abc)
  \/ (length t <> 3%nat /\ unpack3 t = Raise ValueError).
Proof.
  destruct t as [|a [|b [|c [|e t]]]]; simpl; try (right; split; [lia|done]).
  left. split; [done|]. by eexists.
Qed.

(** Totals that lack a value, or have one too many, raise when unpacked. *)
Lemma tulosta_rivi_vajaa (ps : dict date summat_kwh) (p : date) (v : summat_kwh) :
  dict_get p ps = Some v -> ~ kolmikot v -> tulosta_rivi ps p = Raise ValueError.
Proof.
  intros Hget Hv. unfold tulosta_rivi, viikonpaivan_nimi.
  destruct (list_getitem_nimet (weekday p) (weekday_range p)) as (nimi & -> & _).
  unfold dict_getitem. rewrite Hget. simpl.
  destruct (unpack3_kolme (kulutus_kwh v)) as [[Hk [[[a b] c] ->]]|[_ ->]]; [|done].
  simpl.
  destruct (unpack3_kolme (tuotanto_kwh v)) as [[Ht _]|[_ ->]]; [|done].
  by destruct Hv.
Qed.

Lemma tulosta_rivit_keskeytyy (ps : dict date summat_kwh) (alku loput : list date)
    (p : date) (e : exn) :
  Forall (fun q => exists r, tulosta_rivi ps q = Ok r) alku ->
  tulosta_rivi ps p = Raise e ->
  exists rivit,
    tulosta_rivit ps (alku ++ p :: loput) = (rivit, Raise e)
    /\ Forall2 (fun q r => tulosta_rivi ps q = Ok r) alku rivit.
Proof.
  intros Halku Hp. induction Halku as [|q alku [r Hr] _ (rivit & IH & Hall)]; simpl.
  - rewrite Hp. by exists [].
  - rewrite Hr, IH. exists (r :: rivit). split; [done|]. by constructor.
Qed.

(** X14. The reporter does not look at the totals before it prints: when the
    totals of a day do not hold three values of each kind, it prints the
    heading and the rows of the earlier days and raises [ValueError] at the
    row of that day. *)
Theorem tulosta_raportti_stops (ps : dict date summat_kwh) (alku loput : list date)
    (p : date) (v : summat_kwh) :
  sorted (dict_keys ps) = alku ++ p :: loput ->
  (forall q w, q ∈ alku -> dict_get q ps = Some w -> kolmikot w) ->
  dict_get p ps = Some v ->
  ~ kolmikot v ->
  exists rivit,
    tulosta_raportti ps = (otsikko ++ rivit, Raise ValueError)
    /\ Forall2 (fun q r => tulosta_rivi ps q = Ok r) alku rivit.
Proof.
  intros Hsorted Halku Hget Hv.
  destruct (tulosta_rivit_keskeytyy ps alku loput p ValueError) as (rivit & Hr & Hall).
  - apply Forall_forall. intros q Hq.
    assert (Hkey : q ∈ dict_keys ps).
    { rewrite <- (sorted_Permutation (dict_keys ps)), Hsorted.
      apply elem_of_app. by left. }
    apply dict_keys_get in Hkey as [w Hw].
    apply (tulosta_rivi_ok ps q w Hw). by eapply Halku.
  - by eapply tulosta_rivi_vajaa.
  - exists rivit. split; [|done]. unfold tulosta_raportti. by rewrite Hsorted, Hr.
Qed.

Lemma tulosta_raportti_stops_witness :
  exists rivit,
    tulosta_raportti vajaa = (otsikko ++ rivit, Raise ValueError)
    /\ Forall2 (fun q r => tulosta_rivi vajaa q = Ok r) [ma_14_10] rivit.
Proof.
  apply (tulosta_raportti_stops vajaa [ma_14_10] [] ti_15_10
           {| kulutus_kwh := [Float.of_Z 1; Float.of_Z 2; Float.of_Z 3];
              tuotanto_kwh := [Float.zero; Float.zero] |}).
  - reflexivity.
  - intros q w Hq Hw. apply list_elem_of_singleton in Hq. subst q.
    vm_compute in Hw. simplify_eq. by split.
  - reflexivity.
  - intros [_ Ht]. discriminate Ht.
Defined.

(** A well-formed mapping is reported in full. *)
Lemma tulosta_raportti_ok (ps : dict date summat_kwh) :
  Forall (fun pv => kolmikot pv.2) ps ->
  exists rivit,
    tulosta_raportti ps = (otsikko ++ rivit, Ok tt)
    /\ Forall2 (fun p r => tulosta_rivi ps p = Ok r) (sorted (dict_keys ps)) rivit.
Proof.
  intros Hk.
  destruct (tulosta_rivit_ok ps (sorted (dict_keys ps))) as (rivit & Hr & Hall).
  { apply Forall_forall. intros p Hp. rewrite sorted_Permutation in Hp.
    apply dict_keys_get in Hp as [v Hv]. apply (tulosta_rivi_ok ps p v Hv).
    rewrite Forall_forall in Hk. apply (Hk (p, v)). by apply dict_get_elem_of. }
  exists rivit. split; [|done]. unfold tulosta_raportti. by rewrite Hr.
Qed.

(** What the aggregator returns is well formed. *)
Lemma laske_paivasummat_kolmikot (ms : list mittaus) :
  exists D,
    laske_paivasummat ms = Ok D
    /\ NoDup (dict_keys D)
    /\ Forall (fun pv => kolmikot pv.2) D
    /\ forall d, d ∈ dict_keys D <-> d ∈ paivat ms.
Proof.
  destruct (laske_paivasummat_lookup ms) as (D & HD & Hnd & Hget).
  exists D. split_and!; [done|done| |].
  - apply Forall_forall. intros [d v] Hin. apply dict_elem_of_get in Hin; [|done].
    rewrite Hget in Hin. case_decide; [|done]. by simplify_eq.
  - intros d. split.
    + intros [v Hv]%dict_keys_get. rewrite Hget in Hv. by case_decide.
    + intros Hd. apply (dict_get_Some_keys _ (paivan_summat d ms)).
      by rewrite Hget, decide_True.
Qed.

(** ** The whole run *)

Section MainFacts.

Variable float_of_string : string -> option float.
Variable datetime_of_string : string -> option datetime.

Local Abbreviation lue_rivi := (lue_rivi float_of_string datetime_of_string).
Local Abbreviation lue_data := (lue_data float_of_string datetime_of_string).
Local Abbreviation main := (main float_of_string datetime_of_string).
Local Abbreviation virheellinen := (virheellinen float_of_string datetime_of_string).
Local Abbreviation vastaa := (vastaa float_of_string datetime_of_string).
Local Abbreviation rivin_virhe := (rivin_virhe float_of_string datetime_of_string).

(** From measurements on, the run cannot fail. *)
Lemma main_after_lue_data (rivit : list rivi) (ms : list mittaus) :
  lue_data rivit = Ok ms ->
  exists D days tulosteet,
    laske_paivasummat ms = Ok D
    /\ main rivit = (otsikko ++ tulosteet, Ok tt)
    /\ StronglySorted date_lt days
    /\ days ≡ₚ remove_dups (paivat ms)
    /\ Forall2 (fun d r => tulosta_rivi D d = Ok r) days tulosteet.
Proof.
  intros Hms. destruct (laske_paivasummat_kolmikot ms) as (D & HD & Hnd & Hk & Hkeys).
  destruct (tulosta_raportti_ok D Hk) as (tulosteet & Hrep & Hall).
  exists D, (sorted (dict_keys D)), tulosteet. split_and!; [done| | | |done].
  - unfold main. by rewrite Hms, HD.
  - apply StronglySorted_strict; [apply sorted_StronglySorted|].
    by rewrite sorted_Permutation.
  - rewrite sorted_Permutation. apply NoDup_Permutation; [done|apply NoDup_remove_dups|].
    intros d. by rewrite Hkeys, elem_of_remove_dups.
Qed.

(** X15. A file without defective rows is reported in full: the heading and
    then one row for each distinct day of the file, the days in strictly
    ascending order, and the run ends normally. *)
Theorem main_report (rivit : list rivi) :
  Forall (fun r => ~ virheellinen r) rivit ->
  exists ms D days tulosteet,
    lue_data rivit = Ok ms
    /\ Forall2 vastaa rivit ms
    /\ laske_paivasummat ms = Ok D
    /\ main rivit = (otsikko ++ tulosteet, Ok tt)
    /\ StronglySorted date_lt days
    /\ days ≡ₚ remove_dups (paivat ms)
    /\ Forall2 (fun d r => tulosta_rivi D d = Ok r) days tulosteet.
Proof.
  intros Hall. destruct (lue_data_reads _ _ rivit [] Hall) as (ms & Hms & Hv).
  destruct (main_after_lue_data rivit ms Hms) as (D & days & tulosteet & H).
  exists ms, D, days, tulosteet. by split_and!; try apply H.
Qed.



End MainFacts.

Lemma main_report_witness :
  exists ms D days tulosteet,
    lue_data Parse.float_of_string Parse.datetime_of_string [rivi_500; rivi_1500] = Ok ms
    /\ Forall2 (vastaa Parse.float_of_string Parse.datetime_of_string)
               [rivi_500; rivi_1500] ms
    /\ laske_paivasummat ms = Ok D
    /\ main Parse.float_of_string Parse.datetime_of_string [rivi_500; rivi_1500]
       = (otsikko ++ tulosteet, Ok tt)
    /\ StronglySorted date_lt days
    /\ days ≡ₚ remove_dups (paivat ms)
    /\ Forall2 (fun d r => tulosta_rivi D d = Ok r) days tulosteet.
Proof.
  apply (main_report Parse.float_of_string Parse.datetime_of_string).
  repeat constructor.
  - exact (vastaa_not_virheellinen _ _ _ _ rivi_500_vastaa).
  - exact (vastaa_not_virheellinen _ _ _ _ rivi_1500_vastaa).
Defined.
